(** * ArcSystem: pairing and topic routing of the A-Frame remote-control system

    A shallow embedding of [src/ArcSystem.js] and [src/EventDetailError.js].

    Strings are byte strings ([String.string]): the UTF-8 text of the
    JavaScript string.  [replace] and [split] below act on these bytes as
    the JavaScript functions act on the text, for the one-byte patterns
    the code uses; [toLowerCase], which follows the Unicode tables, is
    taken from the platform. *)

From Stdlib Require Import String Ascii List ZArith Lia Bool DecimalString.
Import ListNotations.
Open Scope string_scope.

(** ** JavaScript string primitives *)

Module JsString.

(** [s.slice(n)] *)
Fixpoint drop (n : nat) (s : string) : string :=
  match n, s with
  | O, _ => s
  | S _, EmptyString => EmptyString
  | S n', String _ s' => drop n' s'
  end.

(** [s.replace(pattern, replacement)] with a string [pattern]: only the
    first occurrence of [pattern] is replaced. *)
Fixpoint replace (pattern replacement s : string) : string :=
  if prefix pattern s then replacement ++ drop (String.length pattern) s
  else match s with
       | EmptyString => EmptyString
       | String c s' => String c (replace pattern replacement s')
       end.

(** [s.split(sep)] for a one-character separator; the result is never
    the empty array. *)
Fixpoint split (sep : ascii) (s : string) : list string :=
  match s with
  | EmptyString => [EmptyString]
  | String c s' =>
      if Ascii.eqb c sep then EmptyString :: split sep s'
      else match split sep s' with
           | [] => [String c EmptyString]
           | seg :: rest => String c seg :: rest
           end
  end.

(** the characters of a string, for statements about its content *)
Fixpoint chars (s : string) : list ascii :=
  match s with
  | EmptyString => []
  | String c s' => c :: chars s'
  end.

(** [s.includes(c)] for a one-character [c] *)
Definition includes (c : ascii) (s : string) : bool :=
  existsb (Ascii.eqb c) (chars s).

End JsString.
Import JsString.

(** ** Topic protocol *)

(** [paircode + '/' + subtopic], lines 117-120, 147-151, 219, 254 *)
Definition topicFor (paircode subtopic : string) : string :=
  paircode ++ "/" ++ subtopic.

(** lines 174-175: [topic.split('/')] and [topicPath[topicPath.length - 1]];
    an index out of range would read [undefined], hence the option. *)
Definition subtopicOf (topic : string) : option string :=
  let topicPath := split "/" topic in
  nth_error topicPath (List.length topicPath - 1).

(** ** JSON values and [JSON.stringify] *)

#[local] Unset Elimination Schemes.

(** The values [JSON.parse] can return.  Numbers are the integer-valued
    ones; objects keep their properties in order, under distinct keys. *)
Inductive json : Type :=
| JNull
| JBool (b : bool)
| JNumber (z : Z)
| JString (s : string)
| JArray (items : list json)
| JObject (fields : list (string * json)).
#[local] Set Elimination Schemes.

Module JSON.

Definition dquote : ascii := ascii_of_nat 34.
Definition backslash : ascii := ascii_of_nat 92.

Definition hex_digit (n : nat) : ascii :=
  nth n (chars "0123456789abcdef") "0"%char.

Definition escape_char (c : ascii) : string :=
  let n := nat_of_ascii c in
  if (n =? 34)%nat then String backslash (String dquote "")
  else if (n =? 92)%nat then String backslash (String backslash "")
  else if (n =? 8)%nat then String backslash "b"
  else if (n =? 12)%nat then String backslash "f"
  else if (n =? 10)%nat then String backslash "n"
  else if (n =? 13)%nat then String backslash "r"
  else if (n =? 9)%nat then String backslash "t"
  else if (n <? 32)%nat then
    String backslash
      ("u00" ++ String (hex_digit (n / 16)) (String (hex_digit (n mod 16)) ""))
  else String c "".

Fixpoint escape (s : string) : string :=
  match s with
  | EmptyString => EmptyString
  | String c s' => escape_char c ++ escape s'
  end.

Definition quote (s : string) : string :=
  String dquote (escape s ++ String dquote "").

Definition number_to_string (z : Z) : string :=
  NilZero.string_of_int (Z.to_int z).

(** [JSON.stringify(value)] *)
Fixpoint stringify (value : json) : string :=
  match value with
  | JNull => "null"
  | JBool true => "true"
  | JBool false => "false"
  | JNumber z => number_to_string z
  | JString s => quote s
  | JArray items => "[" ++ String.concat "," (map stringify items) ++ "]"
  | JObject fields =>
      "{" ++ String.concat ","
               (map (fun kv => quote (fst kv) ++ ":" ++ stringify (snd kv))
                    fields)
          ++ "}"
  end.

(** [value[key]] for a decoded message: reading a property of [null]
    throws (here [None]); a primitive or an array has no such own
    property (here [Some None], the value [undefined]). *)
Fixpoint lookup (key : string) (fields : list (string * json)) : option json :=
  match fields with
  | [] => None
  | (k, v) :: rest => if String.eqb k key then Some v else lookup key rest
  end.

Definition get (value : json) (key : string) : option (option json) :=
  match value with
  | JNull => None
  | JObject fields => Some (lookup key fields)
  | _ => Some None
  end.

(** [value[key]] of a value known not to be [null] *)
Definition field (value : json) (key : string) : option json :=
  match get value key with
  | Some v => v
  | None => None
  end.

(** truthiness of a value that may be [undefined] *)
Definition truthy (value : option json) : bool :=
  match value with
  | None => false
  | Some JNull => false
  | Some (JBool b) => b
  | Some (JNumber z) => negb (Z.eqb z 0)
  | Some (JString s) => negb (String.eqb s "")
  | Some (JArray _) => true
  | Some (JObject _) => true
  end.

(** [value === 'text'] *)
Definition is_string (value : option json) (text : string) : bool :=
  match value with
  | Some (JString s) => String.eqb s text
  | _ => false
  end.

End JSON.

(** ** Data model *)

(** The [ArcTopics] table of the [arc-events] package. *)
Record ArcTopics_t : Type := {
  STATUS : string;
  DATA : string;
  ADD_EVENT_LISTENER : string;
  REMOVE_EVENT_LISTENER : string
}.

(** The bound listener functions of the component. *)
Inductive Listener : Type :=
| EnterVRListener
| ArcsConnectListener
| ArcsDisconnectListener
| ActivateEventsListener
| DeactivateEventsListener.

Definition Listener_eq_dec (a b : Listener) : {a = b} + {a <> b}.
Proof. decide equality. Defined.

Definition registration_eq_dec (a b : string * Listener) : {a = b} + {a <> b}.
Proof. decide equality; [apply Listener_eq_dec | apply string_dec]. Defined.

(** Calls that go to the broker through [async-mqtt]. *)
Inductive BrokerCall : Type :=
| ConnectAsync (url : string)
| Subscribe (topic : string)
| Unsubscribe (topic : string)
| Publish (topic payload : string) (qos : Z)
| ClientEnd.

(** What a listener can throw (or reject its promise with). *)
Inductive exn : Type :=
| EventDetailError (message : string)
| TypeError (what : string)
| SyntaxError
| PayloadError
| BrokerError (call : BrokerCall).

(** The constructor of [EventDetailError.js]. *)
Definition new_EventDetailError (event property expected : string) : exn :=
  EventDetailError
    (String.concat " "
       [ "When dispatching the '" ++ event ++ "' event,";
         "you need to pass a 'detail' object that has a '" ++ property
           ++ "' property (typeof " ++ expected ++ ").";
         "Read about event data here: https://developer.mozilla.org/en-US/docs/Web/API/CustomEvent/detail" ]).

(** [this.data], the component schema. *)
Record Data : Type := {
  protocol : string;
  host : string;
  port : Z;
  app : string;
  path : option string
}.

(** [event.detail] as the listeners document it: [deviceName] a string,
    [events] an array of strings, either of them possibly absent. *)
Record Detail : Type := {
  deviceName : option string;
  events : option (list string)
}.

Record CustomEvent : Type := { detail : Detail }.

(** The [AsyncMqttClient] as far as the component looks at it. *)
Record AsyncMqttClient : Type := {
  connected : bool;
  message_listeners : nat
}.

(** The world outside the listeners, collaborators of the component. *)
Class Platform : Type := {
  (** DOM events as [arc-events] rebuilds them *)
  Event : Type;
  (** [event.type] *)
  event_type : Event -> string;
  (** [String.prototype.toLowerCase] *)
  toLowerCase : string -> string;
  ArcTopics : ArcTopics_t;
  (** [parsePayload] of [arc-events]; [None] when it throws *)
  parsePayload : json -> option Event;
  (** [JSON.parse]; [None] when it throws a [SyntaxError] *)
  JSON_parse : string -> option json;
  (** whether the promise of an awaited broker call resolves *)
  broker_accepts : BrokerCall -> bool
}.

(** How a listener ends: it returns (its promise resolves) or it throws
    (its promise rejects). *)
Inductive Outcome (A : Type) : Type :=
| Returned (a : A)
| Thrown (e : exn).
Arguments Returned {A} a.
Arguments Thrown {A} e.

(** ** The component as a state and error monad over the world *)

Section ArcSystem.

Context `{Platform}.

(** Calls on the collaborators, in the order the code makes them. *)
Inductive Effect : Type :=
| Broker (call : BrokerCall)
| ClientOn (event : string)
| ElAddEventListener (type : string) (listener : Listener)
| ElRemoveEventListener (type : string) (listener : Listener)
| WindowAddEventListener (type : string) (listener : Listener)
| WindowRemoveEventListener (type : string) (listener : Listener)
| ElEmit (name : string)
| WindowDispatchEvent (e : Event)
| ConsoleDebug (text : string)
| ActiveElementBlur
| BodyFocus
| UnhandledRejection (e : exn).

(** The component instance ([paircode], [mqttClient], [data]), the
    listener registries of [this.el] and [window], the focused element
    ([Some b]: an element, [b] telling whether it is an [HTMLElement])
    and the log of calls made so far. *)
Record World : Type := {
  paircode : string;
  mqttClient : option AsyncMqttClient;
  data : Data;
  el_listeners : list (string * Listener);
  window_listeners : list (string * Listener);
  activeElement : option bool;
  effects : list Effect
}.

Definition set_paircode (p : string) (w : World) : World :=
  {| paircode := p; mqttClient := mqttClient w; data := data w;
     el_listeners := el_listeners w; window_listeners := window_listeners w;
     activeElement := activeElement w; effects := effects w |}.

Definition set_mqttClient (c : option AsyncMqttClient) (w : World) : World :=
  {| paircode := paircode w; mqttClient := c; data := data w;
     el_listeners := el_listeners w; window_listeners := window_listeners w;
     activeElement := activeElement w; effects := effects w |}.

Definition set_el_listeners (l : list (string * Listener)) (w : World) : World :=
  {| paircode := paircode w; mqttClient := mqttClient w; data := data w;
     el_listeners := l; window_listeners := window_listeners w;
     activeElement := activeElement w; effects := effects w |}.

Definition set_window_listeners (l : list (string * Listener)) (w : World) : World :=
  {| paircode := paircode w; mqttClient := mqttClient w; data := data w;
     el_listeners := el_listeners w; window_listeners := l;
     activeElement := activeElement w; effects := effects w |}.

Definition log (e : Effect) (w : World) : World :=
  {| paircode := paircode w; mqttClient := mqttClient w; data := data w;
     el_listeners := el_listeners w; window_listeners := window_listeners w;
     activeElement := activeElement w; effects := effects w ++ [e] |}.

Definition M (A : Type) : Type := World -> Outcome A * World.

Definition ret {A} (a : A) : M A := fun w => (Returned a, w).

Definition throw {A} (e : exn) : M A := fun w => (Thrown e, w).

Definition bind {A B} (m : M A) (k : A -> M B) : M B :=
  fun w =>
    match m w with
    | (Returned a, w') => k a w'
    | (Thrown e, w') => (Thrown e, w')
    end.

Definition read : M World := fun w => (Returned w, w).

Definition modify (f : World -> World) : M unit := fun w => (Returned tt, f w).

Definition perform (e : Effect) : M unit := modify (log e).

Notation "x <- m ;; k" := (bind m (fun x => k))
  (at level 61, m at next level, right associativity).
Notation "m ;; k" := (bind m (fun _ => k))
  (at level 61, right associativity).

Fixpoint for_of {A} (items : list A) (body : A -> M unit) : M unit :=
  match items with
  | [] => ret tt
  | x :: rest => body x ;; for_of rest body
  end.

(** *** DOM and broker primitives *)

(** [addEventListener] ignores a registration already present. *)
Definition add_registration (r : string * Listener)
    (l : list (string * Listener)) : list (string * Listener) :=
  if in_dec registration_eq_dec r l then l else l ++ [r].

Definition remove_registration (r : string * Listener)
    (l : list (string * Listener)) : list (string * Listener) :=
  List.remove registration_eq_dec r l.

Definition el_addEventListener (type : string) (listener : Listener) : M unit :=
  perform (ElAddEventListener type listener) ;;
  modify (fun w => set_el_listeners (add_registration (type, listener) (el_listeners w)) w).

Definition el_removeEventListener (type : string) (listener : Listener) : M unit :=
  perform (ElRemoveEventListener type listener) ;;
  modify (fun w => set_el_listeners (remove_registration (type, listener) (el_listeners w)) w).

Definition window_addEventListener (type : string) (listener : Listener) : M unit :=
  perform (WindowAddEventListener type listener) ;;
  modify (fun w => set_window_listeners (add_registration (type, listener) (window_listeners w)) w).

Definition window_removeEventListener (type : string) (listener : Listener) : M unit :=
  perform (WindowRemoveEventListener type listener) ;;
  modify (fun w => set_window_listeners (remove_registration (type, listener) (window_listeners w)) w).

Definition console_debug (text : string) : M unit := perform (ConsoleDebug text).

(** [await call]: the call is made; its promise resolves or rejects. *)
Definition await (call : BrokerCall) : M unit :=
  perform (Broker call) ;;
  if broker_accepts call then ret tt else throw (BrokerError call).

(** A call whose promise nobody awaits. *)
Definition call_no_await (call : BrokerCall) : M unit := perform (Broker call).

(** [this.mqttClient.method]: reading a method of [null] throws. *)
Definition the_client (method : string) : M AsyncMqttClient :=
  w <- read ;;
  match mqttClient w with
  | Some c => ret c
  | None => throw (TypeError ("Cannot read properties of null (reading '" ++ method ++ "')"))
  end.

(** [await connectAsync(url)] resolves to a connected client. *)
Definition connectAsync (url : string) : M AsyncMqttClient :=
  await (ConnectAsync url) ;;
  ret {| connected := true; message_listeners := 0 |}.

Definition client_on_message : M unit :=
  c <- the_client "on" ;;
  perform (ClientOn "message") ;;
  modify (set_mqttClient
            (Some {| connected := connected c;
                     message_listeners := S (message_listeners c) |})).

Definition client_subscribe (topic : string) : M unit :=
  _ <- the_client "subscribe" ;; await (Subscribe topic).

Definition client_unsubscribe (topic : string) : M unit :=
  _ <- the_client "unsubscribe" ;; await (Unsubscribe topic).

Definition client_publish (topic payload : string) (qos : Z) : M unit :=
  _ <- the_client "publish" ;; await (Publish topic payload qos).

(** [await this.mqttClient.end()]: once closed the client reports
    [connected === false]. *)
Definition client_end : M unit :=
  c <- the_client "end" ;;
  await ClientEnd ;;
  modify (set_mqttClient
            (Some {| connected := false;
                     message_listeners := message_listeners c |})).

(** *** The listeners of [ArcSystem.js] *)

Definition this_paircode : M string := w <- read ;; ret (paircode w).

(** line 112: [this.data.app + '/' + deviceName.replace(' ', '-').toLowerCase()] *)
Definition derivePaircode (appName deviceName : string) : string :=
  appName ++ "/" ++ toLowerCase (replace " " "-" deviceName).

(** [init ()] *)
Definition init : M unit :=
  modify (set_paircode "") ;;
  modify (set_mqttClient None) ;;
  el_addEventListener "enter-vr" EnterVRListener ;;
  el_addEventListener "arcs-connect" ArcsConnectListener.

(** [enterVRListener ()] *)
Definition enterVRListener : M unit :=
  w <- read ;;
  (match activeElement w with
   | Some true => perform ActiveElementBlur
   | _ => ret tt
   end) ;;
  perform BodyFocus.

(** [onPeerData (payload)].  The call of [window.dispatchEvent] is
    recorded; the listeners the event reaches on [window] are not run
    here, so what is said of a relayed event is said of an event for
    whose type [window] holds no listener. *)
Definition onPeerData (payload : json) : M unit :=
  match parsePayload payload with
  | Some e => perform (WindowDispatchEvent e)
  | None => throw PayloadError
  end.

(** [!this.mqttClient || this.mqttClient.connected === false] *)
Definition not_connected (w : World) : bool :=
  match mqttClient w with
  | None => true
  | Some c => Bool.eqb (connected c) false
  end.

(** [activateEvents (type)] *)
Definition activateEvents (type : string) : M unit :=
  console_debug ("Activate event: " ++ type) ;;
  w <- read ;;
  if not_connected w then console_debug "MQTT not connected."
  else
    call_no_await
      (Publish (topicFor (paircode w) (ADD_EVENT_LISTENER ArcTopics))
               (JSON.stringify (JObject [("type", JString type)]))
               2).

(** [activateEventsListener (event)] *)
Definition activateEventsListener (event : CustomEvent) : M unit :=
  match events (detail event) with
  | None =>
      throw (new_EventDetailError "arc-remote-add-listener" "events" "array<string>")
  | Some types => for_of types activateEvents
  end.

(** [deactivateEvents (type)] *)
Definition deactivateEvents (type : string) : M unit :=
  console_debug ("Deactivate event: " ++ type) ;;
  w <- read ;;
  if not_connected w then console_debug "MQTT not connected."
  else
    call_no_await
      (Publish (topicFor (paircode w) (REMOVE_EVENT_LISTENER ArcTopics))
               (JSON.stringify (JObject [("type", JString type)]))
               2).

(** [deactivateEventsListener (event)] *)
Definition deactivateEventsListener (event : CustomEvent) : M unit :=
  match events (detail event) with
  | None =>
      throw (new_EventDetailError "arc-remote-remove-listener" "events" "array<string>")
  | Some types => for_of types deactivateEvents
  end.

(** the template literal of line 114 *)
Definition connection_url (d : Data) : string :=
  protocol d ++ "://" ++ host d ++ ":" ++ JSON.number_to_string (port d)
    ++ match path d with Some p => p | None => "" end.

(** [JSON.stringify({ type: 'vr', connected: ... })] *)
Definition status_message (is_connected : bool) : string :=
  JSON.stringify (JObject [("type", JString "vr"); ("connected", JBool is_connected)]).

(** [arcsConnectListener (event)] *)
Definition arcsConnectListener (event : CustomEvent) : M unit :=
  el_removeEventListener "arcs-connect" ArcsConnectListener ;;
  window_addEventListener "beforeunload" ArcsDisconnectListener ;;
  match deviceName (detail event) with
  | None => throw (new_EventDetailError "arcs-connect" "deviceName" "string")
  | Some name =>
      w <- read ;;
      modify (set_paircode (derivePaircode (app (data w)) name)) ;;
      client <- connectAsync (connection_url (data w)) ;;
      modify (set_mqttClient (Some client)) ;;
      client_on_message ;;
      p <- this_paircode ;;
      client_subscribe (topicFor p (STATUS ArcTopics)) ;;
      p <- this_paircode ;;
      client_subscribe (topicFor p (DATA ArcTopics)) ;;
      p <- this_paircode ;;
      client_publish (topicFor p (STATUS ArcTopics)) (status_message true) 2 ;;
      (match events (detail event) with
       | Some _ => activateEventsListener event
       | None => ret tt
       end) ;;
      el_addEventListener "arc-remote-add-listener" ActivateEventsListener ;;
      el_addEventListener "arc-remote-remove-listener" DeactivateEventsListener ;;
      el_addEventListener "arcs-disconnect" ArcsDisconnectListener
  end.

(** [arcsDisconnectListener ()] *)
Definition arcsDisconnectListener : M unit :=
  el_removeEventListener "arcs-disconnect" ArcsDisconnectListener ;;
  window_removeEventListener "beforeunload" ArcsDisconnectListener ;;
  p <- this_paircode ;;
  client_unsubscribe (topicFor p (DATA ArcTopics)) ;;
  p <- this_paircode ;;
  client_unsubscribe (topicFor p (STATUS ArcTopics)) ;;
  p <- this_paircode ;;
  client_publish (topicFor p (STATUS ArcTopics)) (status_message false) 2 ;;
  client_end ;;
  el_addEventListener "arcs-connect" ArcsConnectListener.

(** [JSON.parse(payload.toString())] *)
Definition parse_message (payload : string) : M json :=
  match JSON_parse payload with
  | Some message => ret message
  | None => throw SyntaxError
  end.

(** [message.key] *)
Definition property (message : json) (key : string) : M (option json) :=
  match JSON.get message key with
  | Some v => ret v
  | None => throw (TypeError ("Cannot read properties of null (reading '" ++ key ++ "')"))
  end.

(** [subTopic === name], where [subTopic] may be [undefined] *)
Definition is_subtopic (subTopic : option string) (name : string) : bool :=
  match subTopic with
  | Some s => String.eqb s name
  | None => false
  end.

(** [messageListener (topic, payload)] *)
Definition messageListener (topic payload : string) : M unit :=
  let subTopic := subtopicOf topic in
  message <- parse_message payload ;;
  if is_subtopic subTopic (STATUS ArcTopics) then
    type <- property message "type" ;;
    if JSON.is_string type "remote" then
      is_connected <- property message "connected" ;;
      if JSON.truthy is_connected then perform (ElEmit "arc-remote-connected")
      else ret tt
    else ret tt
  else if is_subtopic subTopic (DATA ArcTopics) then onPeerData message
  else ret tt.

(** *** Triggers from outside *)

(** One call of a bound listener. *)
Inductive Invocation : Type :=
| CallListener (listener : Listener) (event : CustomEvent)
| CallMessageListener (topic payload : string).

Definition invoke (i : Invocation) : M unit :=
  match i with
  | CallListener EnterVRListener _ => enterVRListener
  | CallListener ArcsConnectListener event => arcsConnectListener event
  | CallListener ArcsDisconnectListener _ => arcsDisconnectListener
  | CallListener ActivateEventsListener event => activateEventsListener event
  | CallListener DeactivateEventsListener event => deactivateEventsListener event
  | CallMessageListener topic payload => messageListener topic payload
  end.

(** Nobody awaits what a listener returns: a rejection stays unhandled. *)
Definition settle (m : M unit) (w : World) : World :=
  match m w with
  | (Returned _, w') => w'
  | (Thrown e, w') => log (UnhandledRejection e) w'
  end.

(** Calls run one after the other, each to its end: listeners that are
    suspended at an [await] are not interleaved. *)
Definition run_invocations (calls : list Invocation) (w : World) : World :=
  fold_left (fun w' i => settle (invoke i) w') calls w.

Definition listeners_for (type : string) (l : list (string * Listener)) : list Listener :=
  map snd (filter (fun r => String.eqb (fst r) type) l).

(** What the outside can do: emit an event on the scene element, fire
    an event on [window], deliver a broker message to the client.  The
    client's [connected] flag changes only through the listeners: a
    connection that drops by itself is not among the stimuli, so the
    statements about runs speak of runs without such a drop. *)
Inductive Stimulus : Type :=
| SceneEmit (type : string) (d : Detail)
| WindowEvent (type : string)
| BrokerMessage (topic payload : string).

Definition no_detail : CustomEvent :=
  {| detail := {| deviceName := None; events := None |} |}.

(** The listeners a stimulus reaches, taken when it arrives. *)
Definition invocations_of (s : Stimulus) (w : World) : list Invocation :=
  match s with
  | SceneEmit type d =>
      map (fun l => CallListener l {| detail := d |})
          (listeners_for type (el_listeners w))
  | WindowEvent type =>
      map (fun l => CallListener l no_detail)
          (listeners_for type (window_listeners w))
  | BrokerMessage topic payload =>
      match mqttClient w with
      | Some c => repeat (CallMessageListener topic payload) (message_listeners c)
      | None => []
      end
  end.

Definition react (s : Stimulus) (w : World) : World :=
  run_invocations (invocations_of s w) w.

Definition run (stimuli : list Stimulus) (w : World) : World :=
  fold_left (fun w' s => react s w') stimuli w.

(** *** Observations *)

Fixpoint broker_calls (l : list Effect) : list BrokerCall :=
  match l with
  | [] => []
  | Broker call :: rest => call :: broker_calls rest
  | _ :: rest => broker_calls rest
  end.

Definition is_returned {A} (o : Outcome A) : bool :=
  match o with
  | Returned _ => true
  | Thrown _ => false
  end.

(** whether a call is a disconnect that runs to its end *)
Definition completes_disconnect (i : Invocation) (w : World) : bool :=
  match i with
  | CallListener ArcsDisconnectListener _ => is_returned (fst (arcsDisconnectListener w))
  | _ => false
  end.

Fixpoint no_disconnect_completes (calls : list Invocation) (w : World) : bool :=
  match calls with
  | [] => true
  | i :: rest =>
      negb (completes_disconnect i w)
      && no_disconnect_completes rest (settle (invoke i) w)
  end.

Fixpoint no_disconnect_completes_in (stimuli : list Stimulus) (w : World) : bool :=
  match stimuli with
  | [] => true
  | s :: rest =>
      no_disconnect_completes (invocations_of s w) w
      && no_disconnect_completes_in rest (react s w)
  end.

(** no listener at all is registered under ['arcs-connect'] *)
Definition detached (w : World) : Prop :=
  listeners_for "arcs-connect" (el_listeners w) = [].

(** every registration under ['arcs-connect'] is the connect listener *)
Definition connect_slot_ok (w : World) : bool :=
  forallb (fun l => if Listener_eq_dec l ArcsConnectListener then true else false)
          (listeners_for "arcs-connect" (el_listeners w)).

Definition log_all (es : list Effect) (w : World) : World :=
  fold_left (fun w' e => log e w') es w.

(** [JSON.stringify({ type: type })] *)
Definition control_message (type : string) : string :=
  JSON.stringify (JObject [("type", JString type)]).

(** what requesting one event type on [subtopic] leaves in the log of a
    world whose instance is as in [w] *)
Definition request_effects (verb subtopic : string) (w : World) (type : string)
  : list Effect :=
  [ ConsoleDebug (verb ++ " event: " ++ type);
    if not_connected w then ConsoleDebug "MQTT not connected."
    else Broker (Publish (topicFor (paircode w) subtopic) (control_message type) 2) ].

(** the world before [init] runs *)
Definition blank (d : Data) (focused : option bool) : World :=
  {| paircode := ""; mqttClient := None; data := d;
     el_listeners := []; window_listeners := [];
     activeElement := focused; effects := [] |}.

End ArcSystem.

(** ** A concrete platform to run the model on *)

Module Sample.

Definition topics : ArcTopics_t :=
  {| STATUS := "status"; DATA := "data";
     ADD_EVENT_LISTENER := "add-event-listener";
     REMOVE_EVENT_LISTENER := "remove-event-listener" |}.

Definition remote_connected : json :=
  JObject [("type", JString "remote"); ("connected", JBool true)].

Definition remote_connected_number : json :=
  JObject [("type", JString "remote"); ("connected", JNumber 1)].

Definition keydown : json :=
  JObject [("type", JString "keydown"); ("key", JString "w")].

(** [JSON.parse] on the texts of a few values; any other text used
    below, such as ["{"], is not JSON. *)
Definition known : list json :=
  [JNull; remote_connected; remote_connected_number; keydown].

Definition parse (text : string) : option json :=
  find (fun value => String.eqb (JSON.stringify value) text) known.

(** [toLowerCase] on ASCII text, the text of every name used below. *)
Definition lower_char (c : ascii) : ascii :=
  if (65 <=? nat_of_ascii c)%nat && (nat_of_ascii c <=? 90)%nat
  then ascii_of_nat (nat_of_ascii c + 32)
  else c.

Fixpoint lower_case (s : string) : string :=
  match s with
  | EmptyString => EmptyString
  | String c s' => String (lower_char c) (lower_case s')
  end.

(** the [type] of a relayed event, the empty text if it names none *)
Definition type_of (e : json) : string :=
  match JSON.field e "type" with
  | Some (JString t) => t
  | _ => EmptyString
  end.

(** Relayed events stand for themselves; only objects describe one. *)
Definition parse_payload (payload : json) : option json :=
  match payload with
  | JObject _ => Some payload
  | _ => None
  end.

Definition platform : Platform :=
  {| Event := json; event_type := type_of; toLowerCase := lower_case;
     ArcTopics := topics; parsePayload := parse_payload;
     JSON_parse := parse; broker_accepts := fun _ => true |}.

Definition config : Data :=
  {| protocol := "wss"; host := "test.mosquitto.org"; port := 8081;
     app := "app"; path := None |}.

(** the world once [init] has run *)
Definition ready : World (H := platform) :=
  snd (init (H := platform) (blank (H := platform) config None)).

Definition connect_request (name : option string) (types : option (list string))
  : CustomEvent :=
  {| detail := {| deviceName := name; events := types |} |}.

(** the world after a connect as ["My Device"] *)
Definition paired : World (H := platform) :=
  snd (arcsConnectListener (H := platform)
         (connect_request (Some "My Device") None) ready).

Definition status_topic : string := "app/my-device/status".
Definition data_topic : string := "app/my-device/data".

End Sample.

(** ** Sessions: the worlds a run can reach *)

Section Sessions.

Context `{Platform}.

(** the world once [init] has run on a scene with configuration [d] *)
Definition fresh (d : Data) (focused : option bool) : World :=
  snd (init (blank d focused)).

(** The registrations the component ever makes: lines 60-61, 134-136
    and 162 on the element, line 106 on [window]. *)
Definition el_registrations : list (string * Listener) :=
  [ ("enter-vr", EnterVRListener);
    ("arcs-connect", ArcsConnectListener);
    ("arc-remote-add-listener", ActivateEventsListener);
    ("arc-remote-remove-listener", DeactivateEventsListener);
    ("arcs-disconnect", ArcsDisconnectListener) ].

Definition window_registrations : list (string * Listener) :=
  [ ("beforeunload", ArcsDisconnectListener) ].

(** the worlds that differ in their log only *)
Definition same_state (w w' : World) : Prop :=
  paircode w' = paircode w
  /\ mqttClient w' = mqttClient w
  /\ data w' = data w
  /\ el_listeners w' = el_listeners w
  /\ window_listeners w' = window_listeners w
  /\ activeElement w' = activeElement w.

(** the request an ['arc-remote-add-listener'] or
    ['arc-remote-remove-listener'] event carries for [types] *)
Definition request (types : list string) : CustomEvent :=
  {| detail := {| deviceName := None; events := Some types |} |}.

Definition connect_registration : string * Listener :=
  ("arcs-connect", ArcsConnectListener).

Definition disconnect_registration : string * Listener :=
  ("arcs-disconnect", ArcsDisconnectListener).

(** the client [connectAsync] hands over, with the message listener on *)
Definition open_client : AsyncMqttClient :=
  {| connected := true; message_listeners := 1 |}.

(** the element's registry once a connect has run to its end *)
Definition session_registrations (l : list (string * Listener))
  : list (string * Listener) :=
  add_registration disconnect_registration
    (add_registration ("arc-remote-remove-listener", DeactivateEventsListener)
       (add_registration ("arc-remote-add-listener", ActivateEventsListener)
          (remove_registration connect_registration l))).


(** Each registry holds registrations of the component only, each once. *)
Definition registry_ok (w : World) : Prop :=
  NoDup (el_listeners w)
  /\ incl (el_listeners w) el_registrations
  /\ NoDup (window_listeners w)
  /\ incl (window_listeners w) window_registrations.

(** What a run keeps: the registries are in order, and a client has the
    one message listener of line 115. *)
Definition session_ok (w : World) : Prop :=
  registry_ok w
  /\ (forall c, mqttClient w = Some c -> message_listeners c = 1).


End Sessions.

(** A platform whose broker opens connections but rejects every
    subscription. *)
Module Outage.

Definition platform : Platform :=
  {| Event := json; event_type := Sample.type_of;
     toLowerCase := Sample.lower_case; ArcTopics := Sample.topics;
     parsePayload := Sample.parse_payload; JSON_parse := Sample.parse;
     broker_accepts := fun call =>
                         match call with
                         | Subscribe _ => false
                         | _ => true
                         end |}.

Definition ready : World (H := platform) :=
  fresh (H := platform) Sample.config None.

End Outage.

(** * Properties *)

(** ** Strings *)

Section StringFacts.

Lemma append_assoc (a b c : string) : (a ++ b) ++ c = a ++ (b ++ c).
Proof. induction a as [|x a IH]; simpl; [reflexivity | now rewrite IH]. Qed.

Lemma chars_append (a b : string) : chars (a ++ b) = (chars a ++ chars b)%list.
Proof. induction a as [|x a IH]; simpl; [reflexivity | now rewrite IH]. Qed.

Lemma length_chars (s : string) : List.length (chars s) = String.length s.
Proof. induction s as [|x s IH]; simpl; [reflexivity | now rewrite IH]. Qed.

Lemma split_not_nil (sep : ascii) (s : string) : split sep s <> [].
Proof.
  induction s as [|c s IH]; simpl; [discriminate|].
  destruct (Ascii.eqb c sep); [discriminate|].
  destruct (split sep s); discriminate.
Qed.

Lemma split_no_separator (sep : ascii) (s : string) :
  ~ In sep (chars s) -> split sep s = [s].
Proof.
  induction s as [|c s IH]; simpl; intros Hs; [reflexivity|].
  destruct (Ascii.eqb_spec c sep) as [->|Hc]; [exfalso; auto|].
  rewrite IH by auto. reflexivity.
Qed.

(** the array has at least two elements once a separator occurs *)
Lemma split_separator_two (sep : ascii) (a b : string) :
  exists seg seg' rest, split sep (a ++ String sep b) = seg :: seg' :: rest.
Proof.
  induction a as [|c a (seg & seg' & rest & IH)]; simpl.
  - rewrite Ascii.eqb_refl. destruct (split sep b) as [|x l] eqn:E.
    + now apply split_not_nil in E.
    + now exists EmptyString, x, l.
  - rewrite IH. destruct (Ascii.eqb c sep); eauto.
Qed.

Lemma last_split_after_separator (sep : ascii) (a b : string) :
  last (split sep (a ++ String sep b)) EmptyString
  = last (split sep b) EmptyString.
Proof.
  induction a as [|c a IH]; simpl.
  - rewrite Ascii.eqb_refl. destruct (split sep b) eqn:E; [|reflexivity].
    now apply split_not_nil in E.
  - destruct (split_separator_two sep a b) as (seg & seg' & rest & E).
    rewrite E in IH |- *. destruct (Ascii.eqb c sep); exact IH.
Qed.

Lemma nth_error_last {A} (l : list A) (d : A) :
  l <> [] -> nth_error l (List.length l - 1) = Some (last l d).
Proof.
  induction l as [|x l IH]; [congruence|]. intros _.
  destruct l as [|y l]; [reflexivity|].
  replace (List.length (x :: y :: l) - 1) with (S (List.length (y :: l) - 1))
    by (simpl; lia).
  exact (IH ltac:(discriminate)).
Qed.

Lemma subtopicOf_last (topic : string) :
  subtopicOf topic = Some (last (split "/" topic) EmptyString).
Proof. apply nth_error_last, split_not_nil. Qed.

Lemma replace_space_cons (c : ascii) (s : string) :
  replace " " "-" (String c s)
  = if Ascii.eqb c " " then String "-" s else String c (replace " " "-" s).
Proof.
  assert (E : prefix " " (String c s) = Ascii.eqb c " ").
  { change (prefix " " (String c s))
      with (if ascii_dec " " c then prefix EmptyString s else false).
    destruct (ascii_dec " " c) as [<-|Hc].
    - now destruct s.
    - destruct (Ascii.eqb_spec c " ") as [->|_]; [congruence | reflexivity]. }
  change (replace " " "-" (String c s))
    with (if prefix " " (String c s) then "-" ++ drop 1 (String c s)
          else String c (replace " " "-" s)).
  rewrite E. reflexivity.
Qed.

Lemma replace_no_space (s : string) :
  ~ In " "%char (chars s) -> replace " " "-" s = s.
Proof.
  induction s as [|c s IH]; intros Hs; [reflexivity|].
  rewrite replace_space_cons. simpl in Hs.
  destruct (Ascii.eqb_spec c " ") as [->|_]; [exfalso; auto|].
  rewrite IH by auto. reflexivity.
Qed.

Lemma replace_first_space (before after : string) :
  ~ In " "%char (chars before) ->
  replace " " "-" (before ++ String " " after) = before ++ String "-" after.
Proof.
  induction before as [|c s IH]; intros Hs.
  { change (EmptyString ++ String " " after) with (String " " after).
    now rewrite replace_space_cons. }
  change (String c s ++ String " " after) with (String c (s ++ String " " after)).
  rewrite replace_space_cons. simpl in Hs.
  destruct (Ascii.eqb_spec c " ") as [->|_]; [exfalso; auto|].
  rewrite IH by auto. reflexivity.
Qed.

Lemma length_replace_space (s : string) :
  String.length (replace " " "-" s) = String.length s.
Proof.
  induction s as [|c s IH]; [reflexivity|].
  rewrite replace_space_cons. destruct (Ascii.eqb c " "); simpl; congruence.
Qed.

End StringFacts.

(** ** Reasoning about listeners *)

Section ListenerFacts.

Context `{Platform}.

Lemma includes_false (c : ascii) (s : string) :
  includes c s = false -> ~ In c (chars s).
Proof.
  unfold includes. intros E Hin.
  assert (X : existsb (Ascii.eqb c) (chars s) = true)
    by (apply existsb_exists; exists c; split; [exact Hin | apply Ascii.eqb_refl]).
  congruence.
Qed.

(** *** Projections of a world after logging *)

Lemma log_all_app (es es' : list Effect) (w : World) :
  log_all (es ++ es') w = log_all es' (log_all es w).
Proof. apply fold_left_app. Qed.

Lemma effects_log_all (es : list Effect) (w : World) :
  effects (log_all es w) = (effects w ++ es)%list.
Proof.
  revert w. induction es as [|e es IH]; intros w; simpl.
  - now rewrite app_nil_r.
  - change (effects (log_all es (log e w)) = (effects w ++ e :: es)%list).
    rewrite IH. simpl. now rewrite <- app_assoc.
Qed.

Lemma paircode_log_all (es : list Effect) (w : World) :
  paircode (log_all es w) = paircode w.
Proof.
  revert w. induction es as [|e es IH]; intros w; [reflexivity|].
  change (paircode (log_all es (log e w)) = paircode w). now rewrite IH.
Qed.

Lemma mqttClient_log_all (es : list Effect) (w : World) :
  mqttClient (log_all es w) = mqttClient w.
Proof.
  revert w. induction es as [|e es IH]; intros w; [reflexivity|].
  change (mqttClient (log_all es (log e w)) = mqttClient w). now rewrite IH.
Qed.

Lemma data_log_all (es : list Effect) (w : World) :
  data (log_all es w) = data w.
Proof.
  revert w. induction es as [|e es IH]; intros w; [reflexivity|].
  change (data (log_all es (log e w)) = data w). now rewrite IH.
Qed.

Lemma el_listeners_log_all (es : list Effect) (w : World) :
  el_listeners (log_all es w) = el_listeners w.
Proof.
  revert w. induction es as [|e es IH]; intros w; [reflexivity|].
  change (el_listeners (log_all es (log e w)) = el_listeners w). now rewrite IH.
Qed.

Lemma window_listeners_log_all (es : list Effect) (w : World) :
  window_listeners (log_all es w) = window_listeners w.
Proof.
  revert w. induction es as [|e es IH]; intros w; [reflexivity|].
  change (window_listeners (log_all es (log e w)) = window_listeners w).
  now rewrite IH.
Qed.

Lemma not_connected_log_all (es : list Effect) (w : World) :
  not_connected (log_all es w) = not_connected w.
Proof. unfold not_connected. now rewrite mqttClient_log_all. Qed.

Lemma broker_calls_app (l l' : list Effect) :
  broker_calls (l ++ l') = (broker_calls l ++ broker_calls l')%list.
Proof.
  induction l as [|e l IH]; [reflexivity|].
  destruct e; simpl; rewrite IH; reflexivity.
Qed.

(** *** The loops over the requested event types *)

Lemma activateEvents_run (type : string) (w : World) :
  activateEvents type w
  = (Returned tt,
     log_all (request_effects "Activate" (ADD_EVENT_LISTENER ArcTopics) w type) w).
Proof.
  unfold activateEvents, request_effects, bind, console_debug, call_no_await,
    perform, modify, read, log_all.
  cbn [fold_left]. change (not_connected (log _ w)) with (not_connected w).
  destruct (not_connected w); reflexivity.
Qed.

Lemma deactivateEvents_run (type : string) (w : World) :
  deactivateEvents type w
  = (Returned tt,
     log_all (request_effects "Deactivate" (REMOVE_EVENT_LISTENER ArcTopics) w type) w).
Proof.
  unfold deactivateEvents, request_effects, bind, console_debug, call_no_await,
    perform, modify, read, log_all.
  cbn [fold_left]. change (not_connected (log _ w)) with (not_connected w).
  destruct (not_connected w); reflexivity.
Qed.

Lemma request_effects_log_all verb subtopic es w type :
  request_effects verb subtopic (log_all es w) type
  = request_effects verb subtopic w type.
Proof.
  unfold request_effects. now rewrite not_connected_log_all, paircode_log_all.
Qed.

Lemma for_of_activateEvents (types : list string) (w : World) :
  for_of types activateEvents w
  = (Returned tt,
     log_all (flat_map (request_effects "Activate" (ADD_EVENT_LISTENER ArcTopics) w) types) w).
Proof.
  revert w. induction types as [|t types IH]; intros w; [reflexivity|].
  cbn [for_of flat_map]. unfold bind. rewrite activateEvents_run, IH, log_all_app.
  apply f_equal. apply (f_equal (fun es => log_all es _)).
  apply flat_map_ext. intros a. apply request_effects_log_all.
Qed.

Lemma for_of_deactivateEvents (types : list string) (w : World) :
  for_of types deactivateEvents w
  = (Returned tt,
     log_all (flat_map (request_effects "Deactivate" (REMOVE_EVENT_LISTENER ArcTopics) w) types) w).
Proof.
  revert w. induction types as [|t types IH]; intros w; [reflexivity|].
  cbn [for_of flat_map]. unfold bind. rewrite deactivateEvents_run, IH, log_all_app.
  apply f_equal. apply (f_equal (fun es => log_all es _)).
  apply flat_map_ext. intros a. apply request_effects_log_all.
Qed.

Lemma broker_calls_request_effects verb subtopic (w : World) (types : list string) :
  broker_calls (flat_map (request_effects verb subtopic w) types)
  = if not_connected w then []
    else map (fun t => Publish (topicFor (paircode w) subtopic) (control_message t) 2)
             types.
Proof.
  unfold request_effects.
  induction types as [|t types IH]; [now destruct (not_connected w)|].
  cbn [flat_map map]. rewrite broker_calls_app, IH.
  destruct (not_connected w); reflexivity.
Qed.

(** *** Listener registries *)

Lemma listeners_for_app (type : string) (l l' : list (string * Listener)) :
  listeners_for type (l ++ l') = (listeners_for type l ++ listeners_for type l')%list.
Proof. unfold listeners_for. now rewrite filter_app, map_app. Qed.

Lemma listeners_for_add_other (type type' : string) (listener : Listener)
    (l : list (string * Listener)) :
  String.eqb type' type = false ->
  listeners_for type (add_registration (type', listener) l) = listeners_for type l.
Proof.
  intros E. unfold add_registration.
  destruct (in_dec registration_eq_dec (type', listener) l); [reflexivity|].
  rewrite listeners_for_app. unfold listeners_for at 2. cbn [filter fst].
  rewrite E. cbn [map]. apply app_nil_r.
Qed.

Lemma listeners_for_remove_nil (type : string) (r : string * Listener)
    (l : list (string * Listener)) :
  listeners_for type l = [] ->
  listeners_for type (remove_registration r l) = [].
Proof.
  unfold remove_registration, listeners_for.
  induction l as [|x l IH]; [reflexivity|]. cbn [List.remove filter].
  destruct (String.eqb (fst x) type) eqn:E; cbn [map]; [discriminate|].
  intros Hl. destruct (registration_eq_dec r x); [auto|].
  cbn [filter]. rewrite E. auto.
Qed.

Lemma listeners_for_In (type : string) (listener : Listener)
    (l : list (string * Listener)) :
  In (type, listener) l -> In listener (listeners_for type l).
Proof.
  intros Hin. unfold listeners_for.
  apply (in_map snd) in Hin as Hin'. cbn [snd] in Hin'.
  apply in_map_iff. exists (type, listener). split; [reflexivity|].
  apply filter_In. split; [exact Hin|]. apply String.eqb_refl.
Qed.

Lemma In_add_registration (r : string * Listener) (l : list (string * Listener)) :
  In r (add_registration r l).
Proof.
  unfold add_registration. destruct (in_dec registration_eq_dec r l); [assumption|].
  apply in_or_app. right. now left.
Qed.

End ListenerFacts.

(** Unfolding the monad and the primitives, then reducing the record
    projections of the worlds that result. *)
Ltac unfold_ops :=
  cbv beta iota zeta delta
    [arcsConnectListener arcsDisconnectListener messageListener onPeerData
     enterVRListener init
     bind ret throw read modify perform
     el_addEventListener el_removeEventListener
     window_addEventListener window_removeEventListener
     console_debug await call_no_await the_client connectAsync
     client_on_message client_subscribe client_unsubscribe client_publish
     client_end this_paircode parse_message property].

Ltac project :=
  cbn [set_paircode set_mqttClient set_el_listeners set_window_listeners log
       paircode mqttClient data el_listeners window_listeners activeElement
       effects fst snd connected message_listeners].

Ltac project_all :=
  repeat (project;
          rewrite ?paircode_log_all, ?mqttClient_log_all, ?data_log_all,
            ?el_listeners_log_all, ?window_listeners_log_all,
            ?effects_log_all).

(** ** The claims *)

Section Claims.

Context `{Platform}.

(** *** Session identity *)

(** Whatever the broker does afterwards, a connect request that names a
    device leaves [derivePaircode] of the app and the device name in
    [this.paircode]. *)
Lemma paircode_after_connect (w : World) (ev : CustomEvent) (name : string) :
  deviceName (detail ev) = Some name ->
  paircode (snd (arcsConnectListener ev w)) = derivePaircode (app (data w)) name.
Proof.
  intros E. unfold_ops. rewrite E. project.
  destruct (broker_accepts (ConnectAsync _)); project; [|reflexivity].
  destruct (broker_accepts (Subscribe _)); project; [|reflexivity].
  destruct (broker_accepts (Subscribe _)); project; [|reflexivity].
  destruct (broker_accepts (Publish _ _ _)); project; [|reflexivity].
  unfold activateEventsListener.
  destruct (events (detail ev)) as [types|]; [|reflexivity].
  rewrite for_of_activateEvents. project_all. reflexivity.
Qed.

(** Only the first space of a device name is replaced before the name
    is lower-cased. *)
Lemma derivePaircode_first_space (appName before after : string) :
  includes " " before = false ->
  derivePaircode appName (before ++ String " " after)
  = appName ++ "/" ++ toLowerCase (before ++ String "-" after).
Proof.
  intros E. unfold derivePaircode.
  now rewrite (replace_first_space before after (includes_false _ _ E)).
Qed.

Lemma derivePaircode_no_space (appName name : string) :
  includes " " name = false ->
  derivePaircode appName name = appName ++ "/" ++ toLowerCase name.
Proof.
  intros E. unfold derivePaircode.
  now rewrite (replace_no_space name (includes_false _ _ E)).
Qed.

(** *** Topic protocol *)

(** C2: for every paircode and every subtopic without '/', the last
    segment of the composed topic is the subtopic. *)
Theorem subtopicOf_topicFor (p s : string) :
  includes "/" s = false ->
  subtopicOf (topicFor p s) = Some s.
Proof.
  intros E. rewrite subtopicOf_last. unfold topicFor.
  change ("/" ++ s) with (String "/" s).
  rewrite last_split_after_separator.
  rewrite (split_no_separator "/" s (includes_false _ _ E)). reflexivity.
Qed.

(** *** Validation *)

(** C3, as the code has it: a connect request without [deviceName]
    throws the [EventDetailError] of ['arcs-connect'] before the broker
    is touched (no call at all, the instance fields keep their values),
    but after the connect listener has left the element and the
    disconnect listener has been put on [window]'s ['beforeunload']. *)
Theorem connect_without_deviceName (w : World) (ev : CustomEvent) :
  deviceName (detail ev) = None ->
  let w' := snd (arcsConnectListener ev w) in
  fst (arcsConnectListener ev w)
  = Thrown (new_EventDetailError "arcs-connect" "deviceName" "string")
  /\ effects w'
     = (effects w
          ++ [ElRemoveEventListener "arcs-connect" ArcsConnectListener;
              WindowAddEventListener "beforeunload" ArcsDisconnectListener])%list
  /\ broker_calls (effects w') = broker_calls (effects w)
  /\ paircode w' = paircode w
  /\ mqttClient w' = mqttClient w
  /\ el_listeners w'
     = remove_registration ("arcs-connect", ArcsConnectListener) (el_listeners w)
  /\ window_listeners w'
     = add_registration ("beforeunload", ArcsDisconnectListener) (window_listeners w).
Proof.
  intros E. unfold_ops. rewrite E. project.
  repeat split; try reflexivity.
  - now rewrite <- app_assoc.
  - rewrite !broker_calls_app. simpl. now rewrite !app_nil_r.
Qed.

(** C4, as the code has it: an activate or deactivate request without
    [events] throws the [EventDetailError] of its event and leaves the
    world as it was; a request whose [events] is the empty list returns
    without an error and leaves the world as it was.  Either way nothing
    is published. *)
Theorem requests_without_events (w : World) (ev : CustomEvent) :
  (events (detail ev) = None ->
   activateEventsListener ev w
   = (Thrown (new_EventDetailError "arc-remote-add-listener" "events" "array<string>"), w)
   /\ deactivateEventsListener ev w
      = (Thrown (new_EventDetailError "arc-remote-remove-listener" "events" "array<string>"), w))
  /\ (events (detail ev) = Some [] ->
      activateEventsListener ev w = (Returned tt, w)
      /\ deactivateEventsListener ev w = (Returned tt, w)).
Proof.
  unfold activateEventsListener, deactivateEventsListener.
  split; intros ->; split; reflexivity.
Qed.

(** *** Event gateway *)

(** C7: a request for the single event type [t] returns without an
    error; with no client, or a client that is not connected, it only
    writes its two diagnostics and makes no broker call; with a connected
    client it makes exactly one broker call, the publication of
    [{ type: t }] on ADD_EVENT_LISTENER (REMOVE_EVENT_LISTENER for a
    deactivation) with quality of service 2. *)
Theorem single_event_request (w : World) (t : string) :
  let ev := {| detail := {| deviceName := None; events := Some [t] |} |} in
  let published subtopic :=
    Broker (Publish (topicFor (paircode w) subtopic)
                    (JSON.stringify (JObject [("type", JString t)])) 2) in
  ((mqttClient w = None
    \/ exists c, mqttClient w = Some c /\ connected c = false) ->
   activateEventsListener ev w
   = (Returned tt,
      log_all [ConsoleDebug ("Activate event: " ++ t);
               ConsoleDebug "MQTT not connected."] w)
   /\ deactivateEventsListener ev w
      = (Returned tt,
         log_all [ConsoleDebug ("Deactivate event: " ++ t);
                  ConsoleDebug "MQTT not connected."] w)
   /\ broker_calls (effects (snd (activateEventsListener ev w)))
      = broker_calls (effects w)
   /\ broker_calls (effects (snd (deactivateEventsListener ev w)))
      = broker_calls (effects w))
  /\ ((exists c, mqttClient w = Some c /\ connected c = true) ->
      activateEventsListener ev w
      = (Returned tt,
         log_all [ConsoleDebug ("Activate event: " ++ t);
                  published (ADD_EVENT_LISTENER ArcTopics)] w)
      /\ deactivateEventsListener ev w
         = (Returned tt,
            log_all [ConsoleDebug ("Deactivate event: " ++ t);
                     published (REMOVE_EVENT_LISTENER ArcTopics)] w)
      /\ broker_calls (effects (snd (activateEventsListener ev w)))
         = (broker_calls (effects w)
              ++ [Publish (topicFor (paircode w) (ADD_EVENT_LISTENER ArcTopics))
                          (JSON.stringify (JObject [("type", JString t)])) 2])%list
      /\ broker_calls (effects (snd (deactivateEventsListener ev w)))
         = (broker_calls (effects w)
              ++ [Publish (topicFor (paircode w) (REMOVE_EVENT_LISTENER ArcTopics))
                          (JSON.stringify (JObject [("type", JString t)])) 2])%list).
Proof.
  intros ev published.
  assert (A : activateEventsListener ev w
              = (Returned tt,
                 log_all (request_effects "Activate" (ADD_EVENT_LISTENER ArcTopics) w t) w)).
  { unfold activateEventsListener; cbn [events detail ev].
    rewrite for_of_activateEvents. cbn [flat_map]. now rewrite app_nil_r. }
  assert (D : deactivateEventsListener ev w
              = (Returned tt,
                 log_all (request_effects "Deactivate" (REMOVE_EVENT_LISTENER ArcTopics) w t) w)).
  { unfold deactivateEventsListener; cbn [events detail ev].
    rewrite for_of_deactivateEvents. cbn [flat_map]. now rewrite app_nil_r. }
  rewrite A, D. unfold request_effects, control_message, published.
  split.
  - intros Hc.
    assert (N : not_connected w = true).
    { unfold not_connected. destruct Hc as [-> | (c & -> & ->)]; reflexivity. }
    rewrite N. repeat split; cbn [snd]; rewrite effects_log_all, broker_calls_app;
      simpl; now rewrite app_nil_r.
  - intros (c & Hc & Hconn).
    assert (N : not_connected w = false).
    { unfold not_connected. now rewrite Hc, Hconn. }
    rewrite N. repeat split; cbn [snd]; rewrite effects_log_all, broker_calls_app;
      reflexivity.
Qed.

(** *** Connection manager *)

(** C5: a connect request with a device name that runs to its end has
    made these broker calls, in this order and no others: open the
    connection, subscribe STATUS, subscribe DATA, publish
    [{ type: 'vr', connected: true }] on STATUS with quality of service
    2, then one ADD_EVENT_LISTENER publication per initial event type,
    in the order of the list, when a list was supplied. *)
Theorem connect_order (w : World) (ev : CustomEvent) (name : string) :
  deviceName (detail ev) = Some name ->
  fst (arcsConnectListener ev w) = Returned tt ->
  let p := derivePaircode (app (data w)) name in
  broker_calls (effects (snd (arcsConnectListener ev w)))
  = (broker_calls (effects w)
       ++ [ ConnectAsync (connection_url (data w));
            Subscribe (topicFor p (STATUS ArcTopics));
            Subscribe (topicFor p (DATA ArcTopics));
            Publish (topicFor p (STATUS ArcTopics))
                    (JSON.stringify
                       (JObject [("type", JString "vr"); ("connected", JBool true)]))
                    2 ]
       ++ match events (detail ev) with
          | Some types =>
              map (fun t =>
                     Publish (topicFor p (ADD_EVENT_LISTENER ArcTopics))
                             (JSON.stringify (JObject [("type", JString t)])) 2)
                  types
          | None => []
          end)%list.
Proof.
  intros E. unfold_ops. rewrite E. project.
  destruct (broker_accepts (ConnectAsync _)); project; [|discriminate].
  destruct (broker_accepts (Subscribe _)); project; [|discriminate].
  destruct (broker_accepts (Subscribe _)); project; [|discriminate].
  destruct (broker_accepts (Publish _ _ _)); project; [|discriminate].
  unfold activateEventsListener.
  destruct (events (detail ev)) as [types|]; intros _.
  - rewrite for_of_activateEvents. project_all.
    rewrite !broker_calls_app, broker_calls_request_effects.
    cbn [broker_calls]. rewrite !app_nil_r, <- !app_assoc. reflexivity.
  - project. rewrite !broker_calls_app. cbn [broker_calls].
    rewrite !app_nil_r, <- !app_assoc. reflexivity.
Qed.

(** C6: a disconnect on an instance that holds a client makes its
    broker calls in this order: unsubscribe DATA, unsubscribe STATUS,
    publish [{ type: 'vr', connected: false }] on STATUS with quality of
    service 2, close the client.  The calls made are always the first
    ones of this list, and all four when the disconnect runs to its
    end. *)
Theorem disconnect_order (w : World) (c : AsyncMqttClient) :
  mqttClient w = Some c ->
  let p := paircode w in
  let calls :=
    [ Unsubscribe (topicFor p (DATA ArcTopics));
      Unsubscribe (topicFor p (STATUS ArcTopics));
      Publish (topicFor p (STATUS ArcTopics))
              (JSON.stringify
                 (JObject [("type", JString "vr"); ("connected", JBool false)]))
              2;
      ClientEnd ] in
  let made := broker_calls (effects (snd (arcsDisconnectListener w))) in
  (exists n, made = (broker_calls (effects w) ++ firstn n calls)%list)
  /\ (fst (arcsDisconnectListener w) = Returned tt ->
      made = (broker_calls (effects w) ++ calls)%list).
Proof.
  intros E p calls. subst p calls. unfold_ops. project. rewrite E. project.
  destruct (broker_accepts (Unsubscribe _)); project; rewrite ?E; project.
  2: { split; [exists 1|discriminate]. rewrite !broker_calls_app. cbn.
       now rewrite !app_nil_r. }
  destruct (broker_accepts (Unsubscribe _)); project; rewrite ?E; project.
  2: { split; [exists 2|discriminate]. rewrite !broker_calls_app. cbn.
       now rewrite !app_nil_r, <- !app_assoc. }
  destruct (broker_accepts (Publish _ _ _)); project; rewrite ?E; project.
  2: { split; [exists 3|discriminate]. rewrite !broker_calls_app. cbn.
       now rewrite !app_nil_r, <- !app_assoc. }
  destruct (broker_accepts ClientEnd); project.
  2: { split; [exists 4|discriminate]. rewrite !broker_calls_app. cbn.
       now rewrite !app_nil_r, <- !app_assoc. }
  split; [exists 4|intros _]; rewrite !broker_calls_app; cbn;
    now rewrite !app_nil_r, <- !app_assoc.
Qed.

(** *** Inbound messages *)

(** C8, as the code has it: a message whose payload decodes to a value
    other than [null] and whose topic ends in STATUS makes the listener
    return without an error, having emitted ['arc-remote-connected']
    exactly when [type] is the string ['remote'] and [connected] is
    truthy, and nothing else; a message whose payload decodes and whose
    topic ends neither in STATUS nor in DATA makes it return with the
    world unchanged. *)
Theorem status_and_other_subtopics
    (w : World) (topic payload : string) (message : json) :
  JSON_parse payload = Some message ->
  (subtopicOf topic = Some (STATUS ArcTopics) ->
   message <> JNull ->
   messageListener topic payload w
   = (Returned tt,
      if JSON.is_string (JSON.field message "type") "remote"
         && JSON.truthy (JSON.field message "connected")
      then log (ElEmit "arc-remote-connected") w
      else w))
  /\ (forall s : string,
         subtopicOf topic = Some s ->
         s <> STATUS ArcTopics -> s <> DATA ArcTopics ->
         messageListener topic payload w = (Returned tt, w)).
Proof.
  intros P. split.
  - intros T N. unfold_ops. rewrite P, T. cbn [is_subtopic].
    rewrite String.eqb_refl. unfold JSON.field.
    destruct message; try congruence; cbn [JSON.get JSON.is_string andb];
      try reflexivity.
    destruct (JSON.is_string (JSON.lookup "type" fields) "remote"); cbn [andb];
      [|reflexivity].
    destruct (JSON.truthy (JSON.lookup "connected" fields)); reflexivity.
  - intros s T N1 N2. unfold_ops. rewrite P, T. cbn [is_subtopic].
    rewrite (proj2 (String.eqb_neq _ _) N1), (proj2 (String.eqb_neq _ _) N2).
    reflexivity.
Qed.

(** C9, as the code has it: a payload that fails to decode makes the
    listener throw the [SyntaxError] (its promise rejects) before it
    looks at the topic: the world is unchanged, nothing is logged,
    emitted or dispatched by the listener, and as nobody awaits the
    listener the rejection stays unhandled.  A well-formed DATA message
    that follows is dispatched on [window] as usual. *)
Theorem malformed_payload (w : World) (topic payload : string) :
  JSON_parse payload = None ->
  messageListener topic payload w = (Thrown SyntaxError, w)
  /\ settle (messageListener topic payload) w = log (UnhandledRejection SyntaxError) w
  /\ (forall (topic' payload' : string) (message : json) (e : Event),
         subtopicOf topic' = Some (DATA ArcTopics) ->
         DATA ArcTopics <> STATUS ArcTopics ->
         JSON_parse payload' = Some message ->
         parsePayload message = Some e ->
         messageListener topic' payload' (settle (messageListener topic payload) w)
         = (Returned tt,
            log (WindowDispatchEvent e) (log (UnhandledRejection SyntaxError) w))).
Proof.
  intros P.
  assert (E : messageListener topic payload w = (Thrown SyntaxError, w)).
  { unfold_ops. now rewrite P. }
  split; [exact E|]. unfold settle. rewrite E. split; [reflexivity|].
  intros topic' payload' message e T N P' D.
  unfold_ops. rewrite P', T. cbn [is_subtopic].
  rewrite (proj2 (String.eqb_neq _ _) N), String.eqb_refl, D. reflexivity.
Qed.

(** *** The connect listener after a rejected request *)

Lemma detached_not_In (w : World) :
  detached w -> ~ In ("arcs-connect", ArcsConnectListener) (el_listeners w).
Proof.
  unfold detached. intros E Hin. apply listeners_for_In in Hin.
  rewrite E in Hin. exact Hin.
Qed.

Lemma detached_after_removal (l : list (string * Listener)) :
  forallb (fun x => if Listener_eq_dec x ArcsConnectListener then true else false)
          (listeners_for "arcs-connect" l) = true ->
  listeners_for "arcs-connect"
    (remove_registration ("arcs-connect", ArcsConnectListener) l) = [].
Proof.
  unfold remove_registration, listeners_for.
  induction l as [|[type listener] l IH]; [reflexivity|].
  cbn [filter fst List.remove].
  destruct (String.eqb_spec type "arcs-connect") as [->|N].
  - cbn [map forallb snd]. destruct (Listener_eq_dec listener ArcsConnectListener) as [->|];
      [|discriminate].
    cbn [andb]. destruct (registration_eq_dec _ _) as [_|N]; [exact IH | congruence].
  - destruct (registration_eq_dec _ _) as [Eq|_]; [congruence|].
    cbn [filter fst]. rewrite (proj2 (String.eqb_neq _ _) N). exact IH.
Qed.

Lemma settle_el_listeners (m : M unit) (w : World) :
  el_listeners (settle m w) = el_listeners (snd (m w)).
Proof. unfold settle. destruct (m w) as [[a|e] w']; reflexivity. Qed.

Lemma connect_detaches (w : World) (ev : CustomEvent) :
  connect_slot_ok w = true -> detached (snd (arcsConnectListener ev w)).
Proof.
  unfold detached, connect_slot_ok. intros S.
  pose proof (detached_after_removal _ S) as D.
  unfold_ops. destruct (deviceName (detail ev)); project; [|exact D].
  destruct (broker_accepts (ConnectAsync _)); project; [|exact D].
  destruct (broker_accepts (Subscribe _)); project; [|exact D].
  destruct (broker_accepts (Subscribe _)); project; [|exact D].
  destruct (broker_accepts (Publish _ _ _)); project; [|exact D].
  unfold activateEventsListener.
  destruct (events (detail ev)) as [types|];
    [rewrite for_of_activateEvents|]; project_all;
    rewrite !listeners_for_add_other by reflexivity; exact D.
Qed.

Lemma disconnect_thrown_keeps_detached (w : World) :
  detached w ->
  is_returned (fst (arcsDisconnectListener w)) = false ->
  detached (snd (arcsDisconnectListener w)).
Proof.
  unfold detached. intros D.
  pose proof (listeners_for_remove_nil "arcs-connect"
                ("arcs-disconnect", ArcsDisconnectListener) _ D) as D'.
  unfold_ops. project.
  destruct (mqttClient w) eqn:E; project; [|intros _; exact D'].
  destruct (broker_accepts (Unsubscribe _)); project; rewrite ?E; project;
    [|intros _; exact D'].
  destruct (broker_accepts (Unsubscribe _)); project; rewrite ?E; project;
    [|intros _; exact D'].
  destruct (broker_accepts (Publish _ _ _)); project; rewrite ?E; project;
    [|intros _; exact D'].
  destruct (broker_accepts ClientEnd); project; [discriminate|intros _; exact D'].
Qed.

Lemma disconnect_returned_attaches (w : World) :
  fst (arcsDisconnectListener w) = Returned tt ->
  In ("arcs-connect", ArcsConnectListener)
     (el_listeners (snd (arcsDisconnectListener w))).
Proof.
  unfold_ops. project.
  destruct (mqttClient w) eqn:E; project; [|discriminate].
  destruct (broker_accepts (Unsubscribe _)); project; rewrite ?E; project;
    [|discriminate].
  destruct (broker_accepts (Unsubscribe _)); project; rewrite ?E; project;
    [|discriminate].
  destruct (broker_accepts (Publish _ _ _)); project; rewrite ?E; project;
    [|discriminate].
  destruct (broker_accepts ClientEnd); project; [|discriminate].
  intros _. apply In_add_registration.
Qed.

Lemma requests_keep_el_listeners (w : World) (ev : CustomEvent) :
  el_listeners (snd (activateEventsListener ev w)) = el_listeners w
  /\ el_listeners (snd (deactivateEventsListener ev w)) = el_listeners w.
Proof.
  unfold activateEventsListener, deactivateEventsListener.
  destruct (events (detail ev)); [|split; reflexivity].
  rewrite for_of_activateEvents, for_of_deactivateEvents. project_all.
  split; reflexivity.
Qed.

Lemma messageListener_keeps_el_listeners (w : World) (topic payload : string) :
  el_listeners (snd (messageListener topic payload w)) = el_listeners w.
Proof.
  unfold_ops. destruct (JSON_parse payload) as [message|]; [|reflexivity].
  destruct (is_subtopic _ (STATUS ArcTopics)).
  - destruct (JSON.get message "type") as [type|]; [|reflexivity].
    destruct (JSON.is_string type "remote"); [|reflexivity].
    destruct (JSON.get message "connected") as [v|]; [|reflexivity].
    destruct (JSON.truthy v); reflexivity.
  - destruct (is_subtopic _ (DATA ArcTopics)); [|reflexivity].
    destruct (parsePayload message); reflexivity.
Qed.

Lemma enterVRListener_keeps_el_listeners (w : World) :
  el_listeners (snd (enterVRListener w)) = el_listeners w.
Proof. unfold_ops. destruct (activeElement w) as [[]|]; reflexivity. Qed.

(** One call keeps the connect listener off the element unless it is a
    disconnect that runs to its end. *)
Lemma call_keeps_detached (i : Invocation) (w : World) :
  detached w ->
  completes_disconnect i w = false ->
  detached (settle (invoke i) w).
Proof.
  intros D Q. unfold detached. rewrite settle_el_listeners.
  destruct i as [[] ev | topic payload]; cbn [invoke].
  - now rewrite enterVRListener_keeps_el_listeners.
  - apply connect_detaches. unfold connect_slot_ok. now rewrite D.
  - now apply disconnect_thrown_keeps_detached.
  - now rewrite (proj1 (requests_keep_el_listeners w ev)).
  - now rewrite (proj2 (requests_keep_el_listeners w ev)).
  - now rewrite messageListener_keeps_el_listeners.
Qed.

Lemma calls_keep_detached (calls : list Invocation) (w : World) :
  detached w ->
  no_disconnect_completes calls w = true ->
  detached (run_invocations calls w).
Proof.
  revert w. induction calls as [|i calls IH]; intros w D Q; [exact D|].
  cbn [no_disconnect_completes] in Q. apply andb_prop in Q as [Q1 Q2].
  apply negb_true_iff in Q1.
  apply (IH _ (call_keeps_detached i w D Q1) Q2).
Qed.

Lemma stimuli_keep_detached (stimuli : list Stimulus) (w : World) :
  detached w ->
  no_disconnect_completes_in stimuli w = true ->
  detached (run stimuli w).
Proof.
  revert w. induction stimuli as [|s stimuli IH]; intros w D Q; [exact D|].
  cbn [no_disconnect_completes_in] in Q. apply andb_prop in Q as [Q1 Q2].
  apply (IH _ (calls_keep_detached _ w D Q1) Q2).
Qed.

Lemma connect_trigger_ignored (w : World) (d : Detail) :
  detached w -> react (SceneEmit "arcs-connect" d) w = w.
Proof. unfold detached, react, invocations_of. now intros ->. Qed.

(** C10: a connect request without [deviceName] throws after the connect
    listener has left the element.  From then on, through any stimuli
    among which no disconnect runs to its end, the listener stays off and
    a connect trigger changes nothing and calls nobody; a disconnect that
    runs to its end puts the listener back. *)
Theorem failed_connect_detaches_listener (w : World) (ev : CustomEvent) :
  connect_slot_ok w = true ->
  deviceName (detail ev) = None ->
  let w1 := settle (arcsConnectListener ev) w in
  fst (arcsConnectListener ev w)
  = Thrown (new_EventDetailError "arcs-connect" "deviceName" "string")
  /\ (forall stimuli : list Stimulus,
         no_disconnect_completes_in stimuli w1 = true ->
         ~ In ("arcs-connect", ArcsConnectListener) (el_listeners (run stimuli w1))
         /\ forall d : Detail,
             react (SceneEmit "arcs-connect" d) (run stimuli w1) = run stimuli w1)
  /\ (forall stimuli : list Stimulus,
         fst (arcsDisconnectListener (run stimuli w1)) = Returned tt ->
         In ("arcs-connect", ArcsConnectListener)
            (el_listeners (snd (arcsDisconnectListener (run stimuli w1))))).
Proof.
  intros S E w1.
  assert (D : detached w1).
  { unfold detached, w1. rewrite settle_el_listeners. now apply connect_detaches. }
  split; [|split].
  - unfold_ops. now rewrite E.
  - intros stimuli Q.
    pose proof (stimuli_keep_detached stimuli w1 D Q) as D2.
    split; [now apply detached_not_In | intros d; now apply connect_trigger_ignored].
  - intros stimuli. apply disconnect_returned_attaches.
Qed.

End Claims.

(** ** The claims on the concrete platform *)

Section Runs.

Import Sample.

#[local] Existing Instance platform.

(** C1, where the code departs from it: app "app" and device
    "My Device" give "app/my-device", but a device name with more than
    one space keeps every space after the first: app "app" and device
    "My Cool Device" give "app/my-cool device", a paircode with a space
    in it. *)
Theorem derivePaircode_keeps_later_spaces :
  derivePaircode "app" "My Device" = "app/my-device"
  /\ derivePaircode "app" "My Cool Device" = "app/my-cool device"
  /\ includes " " (derivePaircode "app" "My Cool Device") = true
  /\ paircode (snd (arcsConnectListener
                      (connect_request (Some "My Cool Device") None) ready))
     = "app/my-cool device".
Proof. repeat split; reflexivity. Qed.

Example status_message_text :
  chars (status_message true)
  = (chars "{" ++ [JSON.dquote] ++ chars "type" ++ [JSON.dquote] ++ chars ":"
       ++ [JSON.dquote] ++ chars "vr" ++ [JSON.dquote] ++ chars ","
       ++ [JSON.dquote] ++ chars "connected" ++ [JSON.dquote] ++ chars ":true}")%list.
Proof. reflexivity. Qed.

(** A session: connect as "duck", the peer announces itself, disconnect.
    The peer is announced once and the farewell is published before the
    client is closed. *)
Example session_cycle :
  let w := run [SceneEmit "arcs-connect" {| deviceName := Some "duck"; events := None |};
                BrokerMessage "app/duck/status" (JSON.stringify remote_connected);
                SceneEmit "arcs-disconnect" {| deviceName := None; events := None |}]
               ready in
  List.length (filter (fun e => match e with ElEmit _ => true | _ => false end)
                      (effects w)) = 1
  /\ broker_calls (effects w)
     = [ ConnectAsync "wss://test.mosquitto.org:8081";
         Subscribe "app/duck/status";
         Subscribe "app/duck/data";
         Publish "app/duck/status" (status_message true) 2;
         Unsubscribe "app/duck/data";
         Unsubscribe "app/duck/status";
         Publish "app/duck/status" (status_message false) 2;
         ClientEnd ]
  /\ el_listeners w
     = [("enter-vr", EnterVRListener);
        ("arc-remote-add-listener", ActivateEventsListener);
        ("arc-remote-remove-listener", DeactivateEventsListener);
        ("arcs-connect", ArcsConnectListener)].
Proof. repeat split; reflexivity. Qed.

(** After a rejected first request there is no client: the disconnect
    that [window] still holds throws, and the connect listener stays off. *)
Example rejected_request_then_unload :
  let w1 := settle (arcsConnectListener (connect_request None None)) ready in
  let w2 := run [WindowEvent "beforeunload";
                 SceneEmit "arcs-connect" {| deviceName := Some "duck"; events := None |}]
                w1 in
  el_listeners w2 = [("enter-vr", EnterVRListener)]
  /\ broker_calls (effects w2) = [].
Proof. split; reflexivity. Qed.

Lemma subtopicOf_topicFor_witness :
  includes "/" "status" = false
  /\ subtopicOf (topicFor "app/my-device" "status") = Some "status".
Proof.
  split; [reflexivity|]. apply (subtopicOf_topicFor "app/my-device" "status").
  reflexivity.
Defined.

(** The rejected request has changed the registries of the element and
    of [window] by the time it throws. *)
Lemma connect_without_deviceName_changes_listeners :
  let ev := connect_request None None in
  let w' := snd (arcsConnectListener ev ready) in
  deviceName (detail ev) = None
  /\ el_listeners ready
     = [("enter-vr", EnterVRListener); ("arcs-connect", ArcsConnectListener)]
  /\ el_listeners w' = [("enter-vr", EnterVRListener)]
  /\ window_listeners ready = []
  /\ window_listeners w' = [("beforeunload", ArcsDisconnectListener)]
  /\ w' <> ready.
Proof.
  repeat split; try reflexivity.
  intros E. apply (f_equal el_listeners) in E. discriminate E.
Qed.

Lemma connect_without_deviceName_witness :
  let ev := connect_request None None in
  deviceName (detail ev) = None
  /\ fst (arcsConnectListener ev ready)
     = Thrown (new_EventDetailError "arcs-connect" "deviceName" "string")
  /\ broker_calls (effects (snd (arcsConnectListener ev ready)))
     = broker_calls (effects ready).
Proof.
  intros ev. split; [reflexivity|].
  destruct (connect_without_deviceName ready ev) as (T & _ & B & _);
    [reflexivity|]. split; [exact T | exact B].
Defined.

(** A request with an empty [events] returns; it does not throw. *)
Lemma empty_events_request_returns :
  let ev := connect_request None (Some []) in
  events (detail ev) = Some []
  /\ activateEventsListener ev paired = (Returned tt, paired)
  /\ deactivateEventsListener ev paired = (Returned tt, paired).
Proof. repeat split; reflexivity. Qed.

Lemma requests_without_events_witness :
  (events (detail (connect_request None None)) = None
   /\ fst (activateEventsListener (connect_request None None) paired)
      = Thrown (new_EventDetailError "arc-remote-add-listener" "events" "array<string>"))
  /\ (events (detail (connect_request None (Some []))) = Some []
      /\ deactivateEventsListener (connect_request None (Some [])) paired
         = (Returned tt, paired)).
Proof.
  split; (split; [reflexivity|]).
  - destruct (requests_without_events paired (connect_request None None)) as (M & _).
    destruct (M eq_refl) as (A & _). now rewrite A.
  - destruct (requests_without_events paired (connect_request None (Some [])))
      as (_ & M).
    destruct (M eq_refl) as (_ & D). exact D.
Defined.

Lemma connect_order_witness :
  let ev := connect_request (Some "My Device") (Some ["keydown"; "keyup"]) in
  deviceName (detail ev) = Some "My Device"
  /\ fst (arcsConnectListener ev ready) = Returned tt
  /\ broker_calls (effects (snd (arcsConnectListener ev ready)))
     = [ ConnectAsync "wss://test.mosquitto.org:8081";
         Subscribe "app/my-device/status";
         Subscribe "app/my-device/data";
         Publish "app/my-device/status" (status_message true) 2;
         Publish "app/my-device/add-event-listener" (control_message "keydown") 2;
         Publish "app/my-device/add-event-listener" (control_message "keyup") 2 ].
Proof.
  intros ev. split; [reflexivity|]. split; [reflexivity|].
  apply (connect_order ready ev "My Device"); reflexivity.
Defined.

Lemma disconnect_order_witness :
  mqttClient paired = Some {| connected := true; message_listeners := 1 |}
  /\ broker_calls (effects (snd (arcsDisconnectListener paired)))
     = (broker_calls (effects paired)
          ++ [ Unsubscribe "app/my-device/data";
               Unsubscribe "app/my-device/status";
               Publish "app/my-device/status" (status_message false) 2;
               ClientEnd ])%list.
Proof.
  split; [reflexivity|].
  destruct (disconnect_order paired {| connected := true; message_listeners := 1 |})
    as (_ & F); [reflexivity|].
  apply F. reflexivity.
Defined.

Lemma single_event_request_witness :
  let ev := connect_request None (Some ["keydown"]) in
  (mqttClient ready = None
   /\ broker_calls (effects (snd (activateEventsListener ev ready)))
      = broker_calls (effects ready))
  /\ (mqttClient paired = Some {| connected := true; message_listeners := 1 |}
      /\ broker_calls (effects (snd (activateEventsListener ev paired)))
         = (broker_calls (effects paired)
              ++ [Publish "app/my-device/add-event-listener"
                          (control_message "keydown") 2])%list).
Proof.
  intros ev. split; (split; [reflexivity|]).
  - destruct (single_event_request ready "keydown") as (N & _).
    destruct N as (_ & _ & B & _); [left; reflexivity | exact B].
  - destruct (single_event_request paired "keydown") as (_ & C).
    destruct C as (_ & _ & B & _); [|exact B].
    exists {| connected := true; message_listeners := 1 |}. split; reflexivity.
Defined.

(** A STATUS payload that decodes to [null] makes the listener throw; a
    [connected] that is truthy without being [true] announces the peer;
    a payload that is not JSON makes the listener throw on any topic. *)
Lemma status_payload_exceptions :
  subtopicOf status_topic = Some (STATUS ArcTopics)
  /\ JSON_parse "null" = Some JNull
  /\ messageListener status_topic "null" paired
     = (Thrown (TypeError "Cannot read properties of null (reading 'type')"), paired)
  /\ JSON_parse (JSON.stringify remote_connected_number) = Some remote_connected_number
  /\ messageListener status_topic (JSON.stringify remote_connected_number) paired
     = (Returned tt, log (ElEmit "arc-remote-connected") paired)
  /\ subtopicOf "app/my-device/add-event-listener" = Some "add-event-listener"
  /\ messageListener "app/my-device/add-event-listener" "{" paired
     = (Thrown SyntaxError, paired).
Proof. repeat split; reflexivity. Qed.

Lemma status_and_other_subtopics_witness :
  JSON_parse (JSON.stringify remote_connected) = Some remote_connected
  /\ subtopicOf status_topic = Some (STATUS ArcTopics)
  /\ remote_connected <> JNull
  /\ messageListener status_topic (JSON.stringify remote_connected) paired
     = (Returned tt, log (ElEmit "arc-remote-connected") paired)
  /\ subtopicOf "app/my-device/add-event-listener" = Some "add-event-listener"
  /\ messageListener "app/my-device/add-event-listener"
       (JSON.stringify remote_connected) paired
     = (Returned tt, paired).
Proof.
  assert (P : JSON_parse (JSON.stringify remote_connected) = Some remote_connected)
    by reflexivity.
  assert (N : remote_connected <> JNull) by discriminate.
  split; [exact P|]. split; [reflexivity|]. split; [exact N|]. split.
  - destruct (status_and_other_subtopics paired status_topic _ _ P) as (S & _).
    exact (S eq_refl N).
  - split; [reflexivity|].
    destruct (status_and_other_subtopics paired "app/my-device/add-event-listener"
                _ _ P) as (_ & O).
    apply (O "add-event-listener"); [reflexivity | discriminate | discriminate].
Defined.

(** A DATA payload that is not JSON makes the listener throw; the
    listener logs nothing and the rejection stays unhandled. *)
Lemma malformed_data_payload_throws :
  JSON_parse "{" = None
  /\ messageListener data_topic "{" paired = (Thrown SyntaxError, paired)
  /\ effects (settle (messageListener data_topic "{") paired)
     = (effects paired ++ [UnhandledRejection SyntaxError])%list.
Proof. repeat split; reflexivity. Qed.

Lemma malformed_payload_witness :
  JSON_parse "{" = None
  /\ messageListener data_topic "{" paired = (Thrown SyntaxError, paired)
  /\ messageListener data_topic (JSON.stringify keydown)
       (settle (messageListener data_topic "{") paired)
     = (Returned tt,
        log (WindowDispatchEvent keydown) (log (UnhandledRejection SyntaxError) paired)).
Proof.
  split; [reflexivity|].
  destruct (malformed_payload paired data_topic "{") as (T & _ & R); [reflexivity|].
  split; [exact T|].
  apply (R data_topic (JSON.stringify keydown) keydown keydown);
    [reflexivity | discriminate | reflexivity | reflexivity].
Defined.

Lemma failed_connect_detaches_listener_witness :
  let ev := connect_request None None in
  let w1 := settle (arcsConnectListener ev) ready in
  let again := SceneEmit "arcs-connect" {| deviceName := Some "duck"; events := None |} in
  connect_slot_ok ready = true
  /\ deviceName (detail ev) = None
  /\ no_disconnect_completes_in [again; WindowEvent "beforeunload"] w1 = true
  /\ ~ In ("arcs-connect", ArcsConnectListener)
          (el_listeners (run [again; WindowEvent "beforeunload"] w1))
  /\ react again w1 = w1.
Proof.
  intros ev w1 again. split; [reflexivity|]. split; [reflexivity|].
  split; [reflexivity|].
  destruct (failed_connect_detaches_listener ready ev) as (_ & Q & _);
    [reflexivity | reflexivity |].
  split.
  - apply (Q [again; WindowEvent "beforeunload"]). reflexivity.
  - destruct (Q []) as (_ & I); [reflexivity|].
    apply (I {| deviceName := Some "duck"; events := None |}).
Defined.

End Runs.

(** * Further properties of the listeners *)

(** ** Topics and paircodes *)

Section TopicFacts.

Lemma not_In_includes (c : ascii) (s : string) :
  ~ In c (chars s) -> includes c s = false.
Proof.
  unfold includes. intros N. destruct (existsb (Ascii.eqb c) (chars s)) eqn:E;
    [|reflexivity].
  apply existsb_exists in E as (x & Hin & Hx).
  apply Ascii.eqb_eq in Hx. subst x. contradiction.
Qed.

Lemma includes_true (c : ascii) (s : string) :
  includes c s = true -> In c (chars s).
Proof.
  unfold includes. intros E. apply existsb_exists in E as (x & Hin & Hx).
  apply Ascii.eqb_eq in Hx. now subst x.
Qed.

Lemma split_segments (sep : ascii) (s seg : string) :
  In seg (split sep s) -> ~ In sep (chars seg).
Proof.
  revert seg. induction s as [|c s IH]; intros seg; cbn [split].
  - intros [<-|[]]. simpl. tauto.
  - destruct (Ascii.eqb_spec c sep) as [->|N].
    + intros [<-|Hin]; [simpl; tauto | now apply IH].
    + destruct (split sep s) as [|first rest] eqn:E.
      * intros [<-|[]]. simpl. intros [Hc|[]]. congruence.
      * intros [<-|Hin].
        -- simpl. intros [Hc|Hin]; [congruence|].
           apply (IH first); [now left | exact Hin].
        -- apply IH. now right.
Qed.

Lemma last_In {A} (l : list A) (d : A) : l <> [] -> In (last l d) l.
Proof.
  induction l as [|x l IH]; [congruence|]. intros _.
  destruct l as [|y l]; [now left|]. right. apply IH. discriminate.
Qed.

(** the text up to the last separator, and the text after it *)
Lemma last_separator (sep : ascii) (s : string) :
  In sep (chars s) ->
  exists before after,
    s = before ++ String sep after /\ ~ In sep (chars after).
Proof.
  induction s as [|c s IH]; simpl; [tauto|]. intros Hin.
  destruct (includes sep s) eqn:E.
  - destruct (IH (includes_true _ _ E)) as (before & after & -> & N).
    now exists (String c before), after.
  - apply includes_false in E. destruct Hin as [->|Hin]; [|contradiction].
    now exists EmptyString, s.
Qed.

(** X1: the subtopic of a topic is always defined, whatever the topic
    (the index [length - 1] is never out of range); it holds no '/', and
    it is the whole topic when the topic holds no '/'. *)
Theorem subtopicOf_defined (topic : string) :
  exists s : string,
    subtopicOf topic = Some s
    /\ includes "/" s = false
    /\ (includes "/" topic = false -> s = topic).
Proof.
  exists (last (split "/" topic) EmptyString).
  split; [apply subtopicOf_last|]. split.
  - apply not_In_includes, (split_segments "/" topic), last_In, split_not_nil.
  - intros E. now rewrite (split_no_separator "/" topic (includes_false _ _ E)).
Qed.

(** X2: a topic that holds a '/' is the composition of what precedes
    its last '/' with its subtopic. *)
Theorem topic_decomposition (topic : string) :
  includes "/" topic = true ->
  exists p s : string, topic = topicFor p s /\ subtopicOf topic = Some s.
Proof.
  intros E.
  destruct (last_separator "/" topic (includes_true _ _ E)) as (p & s & -> & N).
  exists p, s. split; [reflexivity|].
  rewrite subtopicOf_last, last_split_after_separator.
  now rewrite (split_no_separator "/" s N).
Qed.

Lemma chars_injective (a b : string) : chars a = chars b -> a = b.
Proof.
  revert b. induction a as [|x a IH]; intros [|y b]; simpl; try discriminate;
    [reflexivity|].
  intros [= -> E]. now rewrite (IH b E).
Qed.

(** the message, cut at the three texts the constructor is given *)
Lemma EventDetailError_chars (event property expected : string) :
  exists message : string,
    new_EventDetailError event property expected = EventDetailError message
    /\ chars message
       = (chars "When dispatching the '" ++ chars event
            ++ chars "' event, you need to pass a 'detail' object that has a '"
            ++ chars property
            ++ chars "' property (typeof "
            ++ chars expected
            ++ chars "). Read about event data here: https://developer.mozilla.org/en-US/docs/Web/API/CustomEvent/detail")%list.
Proof.
  eexists. split; [reflexivity|].
  change (String.concat " " [?a; ?b; ?c]) with (a ++ " " ++ b ++ " " ++ c).
  rewrite !chars_append, <- !app_assoc. reflexivity.
Qed.

(** X23: the message of an [EventDetailError] tells the event, the
    property and the expected type apart: two errors that differ in one
    of the three, the other two being the same, have different
    messages. *)
Theorem EventDetailError_message_tells (event property expected : string) :
  (forall event' : string,
      event <> event' ->
      new_EventDetailError event property expected
      <> new_EventDetailError event' property expected)
  /\ (forall property' : string,
         property <> property' ->
         new_EventDetailError event property expected
         <> new_EventDetailError event property' expected)
  /\ (forall expected' : string,
         expected <> expected' ->
         new_EventDetailError event property expected
         <> new_EventDetailError event property expected').
Proof.
  destruct (EventDetailError_chars event property expected) as (m & -> & M).
  split; [|split]; intros x N E; apply N.
  - destruct (EventDetailError_chars x property expected) as (m' & E' & M').
    rewrite E' in E. injection E as <-. rewrite M in M'.
    apply app_inv_head, app_inv_tail in M'. now apply chars_injective.
  - destruct (EventDetailError_chars event x expected) as (m' & E' & M').
    rewrite E' in E. injection E as <-. rewrite M in M'.
    do 3 apply app_inv_head in M'. apply app_inv_tail in M'.
    now apply chars_injective.
  - destruct (EventDetailError_chars event property x) as (m' & E' & M').
    rewrite E' in E. injection E as <-. rewrite M in M'.
    do 5 apply app_inv_head in M'. apply app_inv_tail in M'.
    now apply chars_injective.
Qed.

End TopicFacts.

(** ** Inbound messages and requests *)

Section GatewayFacts.

Context `{Platform}.

Lemma same_state_refl (w : World) : same_state w w.
Proof. repeat split. Qed.

Lemma same_state_log (e : Effect) (w : World) : same_state w (log e w).
Proof. repeat split. Qed.

Lemma same_state_log_all (es : list Effect) (w : World) : same_state w (log_all es w).
Proof.
  unfold same_state.
  rewrite paircode_log_all, mqttClient_log_all, data_log_all,
    el_listeners_log_all, window_listeners_log_all.
  repeat split. revert w. induction es as [|e es IH]; intros w; [reflexivity|].
  exact (IH (log e w)).
Qed.

Lemma same_state_trans (w1 w2 w3 : World) :
  same_state w1 w2 -> same_state w2 w3 -> same_state w1 w3.
Proof.
  unfold same_state. intros (A1 & A2 & A3 & A4 & A5 & A6) (B1 & B2 & B3 & B4 & B5 & B6).
  repeat split; congruence.
Qed.

Lemma broker_calls_log (e : Effect) (w : World) :
  broker_calls (effects (log e w))
  = (broker_calls (effects w) ++ broker_calls [e])%list.
Proof. cbn [effects log]. apply broker_calls_app. Qed.

(** X3: a single space pairs like a hyphen, whatever the platform's
    [toLowerCase]: the device names [before ++ " " ++ after] and
    [before ++ "-" ++ after] give the same paircode when neither part
    holds a space. *)
Theorem derivePaircode_collisions (appName before after : string) :
  includes " " before = false ->
  includes " " after = false ->
  derivePaircode appName (before ++ String " " after)
  = derivePaircode appName (before ++ String "-" after).
Proof.
  intros B A. rewrite (derivePaircode_first_space appName before after B).
  rewrite derivePaircode_no_space; [reflexivity|].
  apply not_In_includes. apply includes_false in B. apply includes_false in A.
  rewrite chars_append. intros Hin. apply in_app_or in Hin as [Hin|Hin]; [tauto|].
  simpl in Hin. destruct Hin as [Hc|Hin]; [discriminate | tauto].
Qed.

(** X4: a message whose topic ends in DATA (a name other than STATUS)
    and whose payload decodes is handed to [parsePayload].  If
    [parsePayload] throws, the listener throws and the world is as
    before.  If it builds an event for whose type [window] holds no
    listener, the event is dispatched on [window], once, and nothing
    else happens. *)
Theorem data_message_relay (w : World) (topic payload : string) (message : json) :
  JSON_parse payload = Some message ->
  subtopicOf topic = Some (DATA ArcTopics) ->
  DATA ArcTopics <> STATUS ArcTopics ->
  (parsePayload message = None ->
   messageListener topic payload w = (Thrown PayloadError, w))
  /\ (forall e : Event,
         parsePayload message = Some e ->
         listeners_for (event_type e) (window_listeners w) = [] ->
         messageListener topic payload w
         = (Returned tt, log (WindowDispatchEvent e) w)).
Proof.
  intros P T N.
  assert (E : messageListener topic payload w = onPeerData message w).
  { unfold messageListener, bind, parse_message, ret. rewrite P, T. cbn [is_subtopic].
    now rewrite (proj2 (String.eqb_neq _ _) N), String.eqb_refl. }
  rewrite E. unfold onPeerData.
  split; [intros -> | intros e -> _]; reflexivity.
Qed.

(** X5: whatever the topic and the payload, when [messageListener]
    throws it has done nothing at all; and when the message does not
    relay an event for whose type [window] holds a listener, the
    listener calls the broker never, leaves the instance and the
    listener registries as they are, and adds at most one entry to the
    log: the peer notification or the one dispatched event. *)
Theorem messageListener_frame (w : World) (topic payload : string) :
  let r := messageListener topic payload w in
  (is_returned (fst r) = false -> snd r = w)
  /\ ((forall (message : json) (e : Event),
          JSON_parse payload = Some message ->
          parsePayload message = Some e ->
          listeners_for (event_type e) (window_listeners w) = []) ->
      same_state w (snd r)
      /\ broker_calls (effects (snd r)) = broker_calls (effects w)
      /\ (snd r = w
          \/ snd r = log (ElEmit "arc-remote-connected") w
          \/ exists e : Event, snd r = log (WindowDispatchEvent e) w)).
Proof.
  assert (Keep : same_state w w /\ broker_calls (effects w) = broker_calls (effects w)
                 /\ (w = w \/ w = log (ElEmit "arc-remote-connected") w
                     \/ exists e : Event, w = log (WindowDispatchEvent e) w))
    by (split; [apply same_state_refl | split; [reflexivity | now left]]).
  unfold_ops. destruct (JSON_parse payload) as [message|]; [|cbn; tauto].
  destruct (is_subtopic _ (STATUS ArcTopics)).
  - destruct (JSON.get message "type") as [type|]; [|cbn; tauto].
    destruct (JSON.is_string type "remote"); [|cbn; intuition discriminate].
    destruct (JSON.get message "connected") as [v|]; [|cbn; tauto].
    destruct (JSON.truthy v); [|cbn; intuition discriminate].
    cbn [fst snd is_returned]. split; [discriminate|]. intros _.
    split; [apply same_state_log|]. split; [|tauto].
    rewrite broker_calls_log. apply app_nil_r.
  - destruct (is_subtopic _ (DATA ArcTopics)); [|cbn; intuition discriminate].
    destruct (parsePayload message) as [e|]; [|cbn; tauto].
    cbn [fst snd is_returned]. split; [discriminate|]. intros _.
    split; [apply same_state_log|]. split; [|eauto].
    rewrite broker_calls_log. apply app_nil_r.
Qed.

(** X6: [messageListener] looks at the last segment of the topic only:
    it does not compare the rest with [this.paircode], so the same
    subtopic under any two prefixes is handled alike. *)
Theorem messageListener_any_prefix
    (w : World) (p p' s payload : string) :
  includes "/" s = false ->
  messageListener (topicFor p s) payload w
  = messageListener (topicFor p' s) payload w.
Proof.
  intros E.
  assert (T : forall q, subtopicOf (topicFor q s) = Some s).
  { intros q. rewrite subtopicOf_last. unfold topicFor.
    change ("/" ++ s) with (String "/" s). rewrite last_split_after_separator.
    now rewrite (split_no_separator "/" s (includes_false _ _ E)). }
  unfold messageListener. now rewrite !T.
Qed.

(** X7: a request that carries an [events] list never throws and
    changes nothing but the log.  With a connected client it publishes
    one control message per entry of the list, in the order of the list
    and repeated entries included; without one it publishes nothing. *)
Theorem requests_for_lists (w : World) (ev : CustomEvent) (types : list string) :
  events (detail ev) = Some types ->
  let a := activateEventsListener ev w in
  let d := deactivateEventsListener ev w in
  let published subtopic :=
    if not_connected w then []
    else map (fun t => Publish (topicFor (paircode w) subtopic)
                               (JSON.stringify (JObject [("type", JString t)])) 2)
             types in
  fst a = Returned tt /\ fst d = Returned tt
  /\ same_state w (snd a) /\ same_state w (snd d)
  /\ broker_calls (effects (snd a))
     = (broker_calls (effects w) ++ published (ADD_EVENT_LISTENER ArcTopics))%list
  /\ broker_calls (effects (snd d))
     = (broker_calls (effects w) ++ published (REMOVE_EVENT_LISTENER ArcTopics))%list.
Proof.
  intros E. unfold activateEventsListener, deactivateEventsListener. rewrite E.
  rewrite for_of_activateEvents, for_of_deactivateEvents. cbn [fst snd].
  rewrite !effects_log_all, !broker_calls_app, !broker_calls_request_effects.
  repeat split; try apply same_state_log_all.
Qed.

(** X8: requesting [types ++ types'] at once is requesting [types] and
    then [types']. *)
Theorem requests_compose (w : World) (types types' : list string) :
  activateEventsListener (request (types ++ types')) w
  = activateEventsListener (request types')
      (snd (activateEventsListener (request types) w))
  /\ deactivateEventsListener (request (types ++ types')) w
     = deactivateEventsListener (request types')
         (snd (deactivateEventsListener (request types) w)).
Proof.
  unfold activateEventsListener, deactivateEventsListener, request.
  cbn [events detail].
  rewrite !for_of_activateEvents, !for_of_deactivateEvents. cbn [snd].
  rewrite !flat_map_app, !log_all_app. split; do 2 f_equal;
    apply flat_map_ext; intros t; now rewrite request_effects_log_all.
Qed.

End GatewayFacts.

(** ** Connect, disconnect and the runs between them *)

Section SessionFacts.

Context `{Platform}.

(** *** Registries as lists *)

Lemma In_add_registration_iff (x r : string * Listener) (l : list (string * Listener)) :
  In x (add_registration r l) <-> x = r \/ In x l.
Proof.
  unfold add_registration. destruct (in_dec registration_eq_dec r l) as [Hin|_].
  - split; [tauto|]. intros [->|Hx]; assumption.
  - rewrite in_app_iff. simpl. intuition congruence.
Qed.

Lemma In_remove_registration_iff (x r : string * Listener) (l : list (string * Listener)) :
  In x (remove_registration r l) <-> In x l /\ x <> r.
Proof.
  unfold remove_registration. split.
  - apply in_remove.
  - intros [Hin N]. now apply in_in_remove.
Qed.

Lemma NoDup_add_registration (r : string * Listener) (l : list (string * Listener)) :
  NoDup l -> NoDup (add_registration r l).
Proof.
  unfold add_registration. intros N.
  destruct (in_dec registration_eq_dec r l) as [_|Hr]; [exact N|].
  induction N as [|x l Hx N IH]; simpl.
  - constructor; [tauto | constructor].
  - constructor.
    + rewrite in_app_iff. simpl. intros [Hin|[<-|[]]]; [tauto|].
      apply Hr. now left.
    + apply IH. intros Hin. apply Hr. now right.
Qed.

Lemma NoDup_remove_registration (r : string * Listener) (l : list (string * Listener)) :
  NoDup l -> NoDup (remove_registration r l).
Proof.
  unfold remove_registration. induction 1 as [|x l Hx N IH]; simpl; [constructor|].
  destruct (registration_eq_dec r x); [exact IH|].
  constructor; [|exact IH]. intros Hin. apply in_remove in Hin. tauto.
Qed.

Lemma incl_add_registration (r : string * Listener) (l e : list (string * Listener)) :
  In r e -> incl l e -> incl (add_registration r l) e.
Proof.
  intros Hr Hl x Hx. apply In_add_registration_iff in Hx as [->|Hx]; auto.
Qed.

Lemma incl_remove_registration (r : string * Listener) (l e : list (string * Listener)) :
  incl l e -> incl (remove_registration r l) e.
Proof.
  intros Hl x Hx. apply In_remove_registration_iff in Hx as [Hx _]. auto.
Qed.

Lemma listeners_for_In_inv (type : string) (listener : Listener)
    (l : list (string * Listener)) :
  In listener (listeners_for type l) -> In (type, listener) l.
Proof.
  unfold listeners_for. intros Hin.
  apply in_map_iff in Hin as ([t x] & E & Hin). cbn [snd] in E. subst x.
  apply filter_In in Hin as [Hin Ht]. cbn [fst] in Ht.
  apply String.eqb_eq in Ht. now subst t.
Qed.

Lemma listeners_for_none (type : string) (l : list (string * Listener)) :
  (forall x, ~ In (type, x) l) -> listeners_for type l = [].
Proof.
  intros N. destruct (listeners_for type l) as [|x rest] eqn:E; [reflexivity|].
  exfalso. apply (N x), listeners_for_In_inv. rewrite E. now left.
Qed.

(** a type has one listener in the tables of the component *)
Lemma el_registrations_functional (type : string) (a b : Listener) :
  In (type, a) el_registrations -> In (type, b) el_registrations -> a = b.
Proof.
  unfold el_registrations. simpl. intros Ha Hb.
  repeat match goal with
         | Hx : _ \/ _ |- _ => destruct Hx as [Hx|Hx]
         | Hx : False |- _ => destruct Hx
         end;
    congruence.
Qed.

Lemma window_registrations_functional (type : string) (a b : Listener) :
  In (type, a) window_registrations -> In (type, b) window_registrations -> a = b.
Proof.
  unfold window_registrations. simpl. intros [Ha|[]] [Hb|[]]. congruence.
Qed.

Lemma at_most_one_listener (type : string) (l e : list (string * Listener)) :
  (forall t a b, In (t, a) e -> In (t, b) e -> a = b) ->
  NoDup l -> incl l e ->
  listeners_for type l = []
  \/ exists x, listeners_for type l = [x] /\ In (type, x) l.
Proof.
  intros F N I. induction N as [|[t x] l Hx N IH]; [now left|].
  assert (I' : incl l e) by (intros y Hy; apply I; now right).
  unfold listeners_for. cbn [filter fst].
  destruct (String.eqb_spec t type) as [->|Ht].
  - right. exists x. split; [|now left]. cbn [map snd]. f_equal.
    apply listeners_for_none. intros y Hy.
    assert (y = x) by (apply (F type); apply I; [now right | now left]).
    subst y. contradiction.
  - destruct (IH I') as [E|(y & E & Hy)]; [now left|].
    right. exists y. split; [exact E | now right].
Qed.

(** *** What a connect and a disconnect leave behind *)

Lemma activeElement_log_all (es : list Effect) (w : World) :
  activeElement (log_all es w) = activeElement w.
Proof.
  revert w. induction es as [|e es IH]; intros w; [reflexivity|].
  change (activeElement (log_all es (log e w)) = activeElement w). now rewrite IH.
Qed.

Ltac failed_outcome :=
  repeat (split; [reflexivity|]); right; eexists;
  split; [reflexivity|]; split; [reflexivity|]; auto.

Lemma connect_outcomes (w : World) (ev : CustomEvent) :
  let r := arcsConnectListener ev w in
  data (snd r) = data w
  /\ activeElement (snd r) = activeElement w
  /\ window_listeners (snd r)
     = add_registration ("beforeunload", ArcsDisconnectListener) (window_listeners w)
  /\ ((fst r = Returned tt
       /\ el_listeners (snd r) = session_registrations (el_listeners w)
       /\ mqttClient (snd r) = Some open_client)
      \/ (exists e, fst r = Thrown e
          /\ el_listeners (snd r)
             = remove_registration connect_registration (el_listeners w)
          /\ (mqttClient (snd r) = mqttClient w
              \/ mqttClient (snd r) = Some open_client))).
Proof.
  unfold_ops.
  destruct (deviceName (detail ev)) as [name|]; project;
    [|failed_outcome].
  destruct (broker_accepts (ConnectAsync _)); project;
    [|failed_outcome].
  destruct (broker_accepts (Subscribe _)); project;
    [|failed_outcome].
  destruct (broker_accepts (Subscribe _)); project;
    [|failed_outcome].
  destruct (broker_accepts (Publish _ _ _)); project;
    [|failed_outcome].
  unfold activateEventsListener.
  destruct (events (detail ev)) as [types|];
    [rewrite for_of_activateEvents|]; project_all;
    rewrite ?activeElement_log_all; project;
    repeat (split; [reflexivity|]); left; repeat split.
Qed.

Lemma disconnect_outcomes (w : World) :
  let r := arcsDisconnectListener w in
  paircode (snd r) = paircode w
  /\ data (snd r) = data w
  /\ activeElement (snd r) = activeElement w
  /\ window_listeners (snd r)
     = remove_registration ("beforeunload", ArcsDisconnectListener) (window_listeners w)
  /\ ((fst r = Returned tt
       /\ el_listeners (snd r)
          = add_registration connect_registration
              (remove_registration disconnect_registration (el_listeners w))
       /\ exists c, mqttClient w = Some c
                    /\ mqttClient (snd r)
                       = Some {| connected := false;
                                 message_listeners := message_listeners c |})
      \/ (exists e, fst r = Thrown e
          /\ el_listeners (snd r)
             = remove_registration disconnect_registration (el_listeners w)
          /\ mqttClient (snd r) = mqttClient w)).
Proof.
  unfold_ops. project.
  destruct (mqttClient w) as [c|] eqn:E; project;
    [|failed_outcome].
  destruct (broker_accepts (Unsubscribe _)); project; rewrite ?E; project;
    [|failed_outcome].
  destruct (broker_accepts (Unsubscribe _)); project; rewrite ?E; project;
    [|failed_outcome].
  destruct (broker_accepts (Publish _ _ _)); project; rewrite ?E; project;
    [|failed_outcome].
  destruct (broker_accepts ClientEnd); project;
    [|failed_outcome].
  repeat (split; [reflexivity|]). left. split; [reflexivity|].
  split; [reflexivity|]. now exists c.
Qed.

Lemma settle_same_state (m : M unit) (w : World) :
  same_state (snd (m w)) (settle m w).
Proof.
  unfold settle. destruct (m w) as [[a|e] w']; [apply same_state_refl|].
  apply same_state_log.
Qed.

Lemma requests_same_state (w : World) (ev : CustomEvent) :
  same_state w (snd (activateEventsListener ev w))
  /\ same_state w (snd (deactivateEventsListener ev w)).
Proof.
  unfold activateEventsListener, deactivateEventsListener.
  destruct (events (detail ev)); [|split; apply same_state_refl].
  rewrite for_of_activateEvents, for_of_deactivateEvents.
  split; apply same_state_log_all.
Qed.

Lemma messageListener_same_state (w : World) (topic payload : string) :
  same_state w (snd (messageListener topic payload w)).
Proof.
  unfold_ops. destruct (JSON_parse payload) as [message|];
    [|apply same_state_refl].
  destruct (is_subtopic _ (STATUS ArcTopics)).
  - destruct (JSON.get message "type") as [type|]; [|apply same_state_refl].
    destruct (JSON.is_string type "remote"); [|apply same_state_refl].
    destruct (JSON.get message "connected") as [v|]; [|apply same_state_refl].
    destruct (JSON.truthy v); [apply same_state_log | apply same_state_refl].
  - destruct (is_subtopic _ (DATA ArcTopics)); [|apply same_state_refl].
    destruct (parsePayload message); [apply same_state_log | apply same_state_refl].
Qed.

Lemma enterVRListener_same_state (w : World) :
  same_state w (snd (enterVRListener w)).
Proof. unfold_ops. destruct (activeElement w) as [[]|]; repeat split. Qed.

(** *** The invariant of a run *)

Lemma session_ok_same_state (w w' : World) :
  same_state w w' -> session_ok w -> session_ok w'.
Proof.
  unfold same_state, session_ok, registry_ok.
  intros (_ & C & _ & E & W & _). now rewrite C, E, W.
Qed.

Lemma fresh_session_ok (d : Data) (focused : option bool) :
  session_ok (fresh d focused).
Proof.
  unfold session_ok, registry_ok, fresh.
  change (el_listeners (snd (init (blank d focused))))
    with [("enter-vr", EnterVRListener); connect_registration].
  change (window_listeners (snd (init (blank d focused))))
    with (@nil (string * Listener)).
  change (mqttClient (snd (init (blank d focused)))) with (@None AsyncMqttClient).
  split; [|discriminate].
  split; [|split; [|split; [constructor | intros x []]]].
  - constructor; [simpl; intros [E|[]]; discriminate E|].
    constructor; [simpl; tauto | constructor].
  - intros x [<-|[<-|[]]]; simpl; tauto.
Qed.

Lemma connect_keeps_session_ok (w : World) (ev : CustomEvent) :
  session_ok w -> session_ok (snd (arcsConnectListener ev w)).
Proof.
  intros ((N & I & NW & IW) & L).
  destruct (connect_outcomes w ev) as (_ & _ & W & O).
  assert (R : NoDup (remove_registration connect_registration (el_listeners w))
              /\ incl (remove_registration connect_registration (el_listeners w))
                      el_registrations)
    by (split; [now apply NoDup_remove_registration
               | now apply incl_remove_registration]).
  assert (RW : NoDup (window_listeners (snd (arcsConnectListener ev w)))
               /\ incl (window_listeners (snd (arcsConnectListener ev w)))
                       window_registrations).
  { rewrite W. split; [now apply NoDup_add_registration|].
    apply incl_add_registration; [now left | exact IW]. }
  destruct O as [(_ & E & M) | (e & _ & E & M)];
    unfold session_ok, registry_ok; rewrite E.
  - unfold session_registrations. split.
    + split; [|split; [|exact RW]].
      * repeat apply NoDup_add_registration. apply R.
      * repeat apply incl_add_registration;
          match goal with
          | |- incl _ _ => apply R
          | |- In _ _ =>
              unfold el_registrations, disconnect_registration; simpl; tauto
          end.
    + rewrite M. intros c [= <-]. reflexivity.
  - split.
    + split; [apply R | split; [apply R | exact RW]].
    + destruct M as [-> | ->]; [exact L | intros c [= <-]; reflexivity].
Qed.

Lemma disconnect_keeps_session_ok (w : World) :
  session_ok w -> session_ok (snd (arcsDisconnectListener w)).
Proof.
  intros ((N & I & NW & IW) & L).
  destruct (disconnect_outcomes w) as (_ & _ & _ & W & O).
  assert (R : NoDup (remove_registration disconnect_registration (el_listeners w))
              /\ incl (remove_registration disconnect_registration (el_listeners w))
                      el_registrations)
    by (split; [now apply NoDup_remove_registration
               | now apply incl_remove_registration]).
  assert (RW : NoDup (window_listeners (snd (arcsDisconnectListener w)))
               /\ incl (window_listeners (snd (arcsDisconnectListener w)))
                       window_registrations).
  { rewrite W. split; [now apply NoDup_remove_registration
                      | now apply incl_remove_registration]. }
  destruct O as [(_ & E & c & Mw & M) | (e & _ & E & M)];
    unfold session_ok, registry_ok; rewrite E.
  - split.
    + split; [|split; [|exact RW]].
      * apply NoDup_add_registration, R.
      * apply incl_add_registration; [|apply R].
        unfold el_registrations, connect_registration; simpl; tauto.
    + rewrite M. intros c' [= <-]. cbn [message_listeners]. now apply L.
  - split.
    + split; [apply R | split; [apply R | exact RW]].
    + now rewrite M.
Qed.

(** what a stimulus sets off in a world that is in order: nothing, or
    one call of a listener *)
Lemma stimulus_cases (s : Stimulus) (w : World) :
  session_ok w ->
  invocations_of s w = []
  \/ (exists l ev, invocations_of s w = [CallListener l ev])
  \/ (exists topic payload, invocations_of s w = [CallMessageListener topic payload]).
Proof.
  intros ((N & I & NW & IW) & L). destruct s as [type d | type | topic payload];
    cbn [invocations_of].
  - destruct (at_most_one_listener type _ _ el_registrations_functional N I)
      as [-> | (x & -> & Hx)]; [now left|].
    right; left. now exists x, {| detail := d |}.
  - destruct (at_most_one_listener type _ _ window_registrations_functional NW IW)
      as [-> | (x & -> & Hx)]; [now left|].
    right; left. now exists x, no_detail.
  - destruct (mqttClient w) as [c|] eqn:E; [|now left].
    rewrite (L c eq_refl). right; right. now exists topic, payload.
Qed.

Lemma react_keeps_session_ok (s : Stimulus) (w : World) :
  session_ok w -> session_ok (react s w).
Proof.
  intros S. unfold react.
  destruct (stimulus_cases s w S)
    as [-> | [(l & ev & ->) | (topic & payload & ->)]];
    [exact S | |]; cbn [run_invocations fold_left];
    apply (session_ok_same_state _ _ (settle_same_state _ w)); cbn [invoke].
  - destruct l.
    + apply (session_ok_same_state w); [apply enterVRListener_same_state | exact S].
    + now apply connect_keeps_session_ok.
    + now apply disconnect_keeps_session_ok.
    + apply (session_ok_same_state w); [apply requests_same_state | exact S].
    + apply (session_ok_same_state w); [apply requests_same_state | exact S].
  - apply (session_ok_same_state w); [apply messageListener_same_state | exact S].
Qed.

Lemma run_keeps_session_ok (stimuli : list Stimulus) (w : World) :
  session_ok w -> session_ok (run stimuli w).
Proof.
  revert w. induction stimuli as [|s stimuli IH]; intros w S; [exact S|].
  apply IH, react_keeps_session_ok, S.
Qed.

End SessionFacts.

Section SessionProperties.

Context `{Platform}.

Lemma listeners_for_add_same (type : string) (x : Listener)
    (l : list (string * Listener)) :
  listeners_for type l = [] ->
  listeners_for type (add_registration (type, x) l) = [x].
Proof.
  intros E. unfold add_registration.
  destruct (in_dec registration_eq_dec (type, x) l) as [Hin|_].
  - apply listeners_for_In in Hin. rewrite E in Hin. destruct Hin.
  - rewrite listeners_for_app, E. unfold listeners_for. cbn [filter fst].
    now rewrite String.eqb_refl.
Qed.



(** X11: a disconnect on an instance without a client throws the
    [TypeError] of reading [unsubscribe] of [null].  It has made no
    broker call; it has taken the disconnect listener off the element
    and off [window], and it has not put the connect listener back. *)
Theorem disconnect_without_client (w : World) :
  mqttClient w = None ->
  let w' := snd (arcsDisconnectListener w) in
  fst (arcsDisconnectListener w)
  = Thrown (TypeError "Cannot read properties of null (reading 'unsubscribe')")
  /\ broker_calls (effects w') = broker_calls (effects w)
  /\ el_listeners w'
     = remove_registration disconnect_registration (el_listeners w)
  /\ window_listeners w'
     = remove_registration ("beforeunload", ArcsDisconnectListener) (window_listeners w)
  /\ mqttClient w' = None
  /\ paircode w' = paircode w.
Proof.
  intros E. unfold_ops. project. rewrite E. project.
  repeat split; try assumption.
  rewrite !broker_calls_app. cbn. now rewrite !app_nil_r.
Qed.

(** X12: in the world a disconnect leaves when it has run to its end, the
    client is kept, closed, and the paircode is kept too: a request to
    add or remove event types made in that world, with or without an
    [events] list, makes no broker call. *)
Theorem requests_after_disconnect (w : World) (ev : CustomEvent) :
  fst (arcsDisconnectListener w) = Returned tt ->
  let w' := snd (arcsDisconnectListener w) in
  (exists c, mqttClient w' = Some c /\ connected c = false)
  /\ paircode w' = paircode w
  /\ broker_calls (effects (snd (activateEventsListener ev w')))
     = broker_calls (effects w')
  /\ broker_calls (effects (snd (deactivateEventsListener ev w')))
     = broker_calls (effects w').
Proof.
  intros R w'.
  destruct (disconnect_outcomes w) as (P & _ & _ & _ & O).
  destruct O as [(_ & _ & c & _ & M) | (e & T & _)]; [|congruence].
  fold w' in M, P. split; [eauto|]. split; [exact P|].
  assert (N : not_connected w' = true) by (unfold not_connected; now rewrite M).
  unfold activateEventsListener, deactivateEventsListener.
  destruct (events (detail ev)) as [types|]; [|split; reflexivity].
  rewrite for_of_activateEvents, for_of_deactivateEvents. cbn [snd].
  rewrite !effects_log_all, !broker_calls_app, !broker_calls_request_effects, N.
  split; apply app_nil_r.
Qed.

(** X13: a disconnect that runs to its end, starting with no listener
    under ['arcs-connect'], re-arms the element: the next connect
    trigger calls [arcsConnectListener], once. *)
Theorem disconnect_rearms_connect (w : World) (d : Detail) :
  detached w ->
  fst (arcsDisconnectListener w) = Returned tt ->
  let w' := snd (arcsDisconnectListener w) in
  react (SceneEmit "arcs-connect" d) w'
  = settle (arcsConnectListener {| detail := d |}) w'.
Proof.
  intros D R w'. unfold detached in D.
  destruct (disconnect_outcomes w) as (_ & _ & _ & _ & O).
  destruct O as [(_ & E & _) | (e & T & _)]; [|congruence].
  fold w' in E. unfold react. cbn [invocations_of]. rewrite E.
  unfold connect_registration. rewrite listeners_for_add_same; [reflexivity|].
  now apply listeners_for_remove_nil.
Qed.

(** X14: in every world a run of stimuli reaches from [init], the
    registries hold registrations of the component only, each once, so
    that a stimulus sets off at most one call of a listener. *)
Theorem one_listener_per_stimulus
    (d : Data) (focused : option bool) (stimuli : list Stimulus) (s : Stimulus) :
  let w := run stimuli (fresh d focused) in
  registry_ok w /\ List.length (invocations_of s w) <= 1.
Proof.
  intros w.
  assert (S : session_ok w) by apply run_keeps_session_ok, fresh_session_ok.
  split; [apply S|].
  destruct (stimulus_cases s w S)
    as [-> | [(l & ev & ->) | (topic & payload & ->)]]; simpl; lia.
Qed.


(** X16: right after [init] the paircode is empty, there is no client
    and nothing was asked of the broker; a connect trigger calls
    [arcsConnectListener], and every scene event other than it and
    ['enter-vr'], every event on [window] and every broker message
    changes nothing: requests made before a connect are dropped without
    an error. *)
Theorem after_init (d : Data) (focused : option bool) :
  let w := fresh d focused in
  paircode w = "" /\ mqttClient w = None /\ broker_calls (effects w) = []
  /\ (forall d' : Detail,
         react (SceneEmit "arcs-connect" d') w
         = settle (arcsConnectListener {| detail := d' |}) w)
  /\ (forall (type : string) (d' : Detail),
         type <> "enter-vr" -> type <> "arcs-connect" ->
         react (SceneEmit type d') w = w)
  /\ (forall type : string, react (WindowEvent type) w = w)
  /\ (forall topic payload : string, react (BrokerMessage topic payload) w = w).
Proof.
  intros w. repeat split.
  intros type d' N1 N2. unfold react. cbn [invocations_of].
  change (el_listeners w) with [("enter-vr", EnterVRListener); connect_registration].
  unfold listeners_for, connect_registration. cbn [filter fst].
  apply not_eq_sym, String.eqb_neq in N1. apply not_eq_sym, String.eqb_neq in N2.
  now rewrite N1, N2.
Qed.

(** *** What no run takes off the element *)

(** the registry of the element after one call of a listener *)
Lemma el_listeners_after_call (i : Invocation) (w : World) :
  let l := el_listeners w in
  let l' := el_listeners (settle (invoke i) w) in
  l' = l
  \/ l' = remove_registration connect_registration l
  \/ l' = session_registrations l
  \/ l' = remove_registration disconnect_registration l
  \/ l' = add_registration connect_registration
            (remove_registration disconnect_registration l).
Proof.
  cbv zeta. rewrite settle_el_listeners.
  destruct i as [[] ev | topic payload]; cbn [invoke].
  - left. apply enterVRListener_same_state.
  - destruct (connect_outcomes w ev) as (_ & _ & _ & [(_ & E & _) | (e & _ & E & _)]);
      rewrite E; tauto.
  - destruct (disconnect_outcomes w)
      as (_ & _ & _ & _ & [(_ & E & _) | (e & _ & E & _)]); rewrite E; tauto.
  - left. apply requests_same_state.
  - left. apply requests_same_state.
  - left. apply messageListener_same_state.
Qed.

Lemma run_el_listeners (Q : list (string * Listener) -> Prop) :
  (forall l, Q l -> Q (remove_registration connect_registration l)) ->
  (forall l, Q l -> Q (session_registrations l)) ->
  (forall l, Q l -> Q (remove_registration disconnect_registration l)) ->
  (forall l, Q l -> Q (add_registration connect_registration
                         (remove_registration disconnect_registration l))) ->
  forall (stimuli : list Stimulus) (w : World),
    Q (el_listeners w) -> Q (el_listeners (run stimuli w)).
Proof.
  intros Q1 Q2 Q3 Q4.
  assert (Calls : forall calls w,
             Q (el_listeners w) -> Q (el_listeners (run_invocations calls w))).
  { induction calls as [|i calls IH]; intros w Hw; [exact Hw|].
    apply IH.
    destruct (el_listeners_after_call i w) as [E|[E|[E|[E|E]]]]; rewrite E; auto. }
  induction stimuli as [|s stimuli IH]; intros w Hw; [exact Hw|].
  apply IH, Calls, Hw.
Qed.

(** X18: the ['enter-vr'] listener, and the listeners for requests to
    add and to remove event types once a connect has put them on the
    element, are never taken off again: no run of stimuli removes them,
    neither a disconnect nor a failed connect. *)
Theorem permanent_listeners
    (w : World) (stimuli : list Stimulus) (r : string * Listener) :
  In r [ ("enter-vr", EnterVRListener);
         ("arc-remote-add-listener", ActivateEventsListener);
         ("arc-remote-remove-listener", DeactivateEventsListener) ] ->
  In r (el_listeners w) ->
  In r (el_listeners (run stimuli w)).
Proof.
  intros Hr.
  assert (N : r <> connect_registration /\ r <> disconnect_registration).
  { unfold connect_registration, disconnect_registration.
    destruct Hr as [<-|[<-|[<-|[]]]]; split; discriminate. }
  apply (run_el_listeners (fun l => In r l));
    unfold session_registrations; intros l Hl;
    rewrite ?In_add_registration_iff, ?In_remove_registration_iff; tauto.
Qed.

(** X19: in every world a run of stimuli reaches from [init], an
    ['enter-vr'] event calls [enterVRListener], once.  The listener
    returns; it blurs the active element exactly when there is one and
    it is an [HTMLElement], then focuses the body, and does nothing
    else. *)
Theorem enter_vr_event
    (d : Data) (focused : option bool) (stimuli : list Stimulus) (d' : Detail) :
  let w := run stimuli (fresh d focused) in
  let blurred :=
    match activeElement w with
    | Some true => log ActiveElementBlur w
    | _ => w
    end in
  enterVRListener w = (Returned tt, log BodyFocus blurred)
  /\ react (SceneEmit "enter-vr" d') w = log BodyFocus blurred.
Proof.
  intros w blurred.
  assert (S : session_ok w) by apply run_keeps_session_ok, fresh_session_ok.
  destruct S as ((N & I & _) & _).
  assert (E : In ("enter-vr", EnterVRListener) (el_listeners w)).
  { apply (run_el_listeners (fun l => In ("enter-vr", EnterVRListener) l));
      unfold session_registrations, connect_registration, disconnect_registration;
      try (intros l Hl;
           rewrite ?In_add_registration_iff, ?In_remove_registration_iff;
           intuition discriminate).
    now left. }
  assert (R : enterVRListener w = (Returned tt, log BodyFocus blurred)).
  { unfold blurred. unfold_ops. destruct (activeElement w) as [[]|]; reflexivity. }
  split; [exact R|].
  unfold react. cbn [invocations_of].
  destruct (at_most_one_listener "enter-vr" _ _ el_registrations_functional N I)
    as [X | (x & -> & Hx)].
  - apply listeners_for_In in E. rewrite X in E. destruct E.
  - assert (x = EnterVRListener)
      by (apply (el_registrations_functional "enter-vr");
          [now apply I | unfold el_registrations; simpl; tauto]).
    subst x. cbn [map run_invocations fold_left invoke]. unfold settle.
    now rewrite R.
Qed.




(** *** A disconnect that fails *)


(** *** Who writes the paircode *)

Lemma connect_without_name_keeps_paircode (w : World) (ev : CustomEvent) :
  deviceName (detail ev) = None ->
  paircode (snd (arcsConnectListener ev w)) = paircode w.
Proof. intros E. unfold_ops. now rewrite E. Qed.

(** X22: no listener changes the configuration, and the connect
    listener alone writes the paircode: a connect request with a device
    name writes the paircode derived from the configured app and that
    name, whether the connect then succeeds or not; every other call of
    a listener (a connect request without a name, a disconnect, a
    request for event types, a message, an enter-vr) leaves the paircode
    as it was. *)
Theorem paircode_of_call (i : Invocation) (w : World) :
  let w' := settle (invoke i) w in
  data w' = data w
  /\ paircode w'
     = match i with
       | CallListener ArcsConnectListener ev =>
           match deviceName (detail ev) with
           | Some name => derivePaircode (app (data w)) name
           | None => paircode w
           end
       | _ => paircode w
       end.
Proof.
  cbv zeta.
  destruct (settle_same_state (invoke i) w) as (P & _ & Dt & _). rewrite P, Dt.
  destruct i as [[] ev | topic payload]; cbn [invoke].
  - destruct (enterVRListener_same_state w) as (-> & _ & -> & _). tauto.
  - split; [apply connect_outcomes|].
    destruct (deviceName (detail ev)) as [name|] eqn:E.
    + now apply paircode_after_connect.
    + now apply connect_without_name_keeps_paircode.
  - destruct (disconnect_outcomes w) as (-> & -> & _). tauto.
  - destruct (proj1 (requests_same_state w ev)) as (-> & _ & -> & _). tauto.
  - destruct (proj2 (requests_same_state w ev)) as (-> & _ & -> & _). tauto.
  - destruct (messageListener_same_state w topic payload) as (-> & _ & -> & _). tauto.
Qed.

End SessionProperties.

(** ** The further properties on the concrete platforms *)

Section FurtherRuns.

Import Sample.

#[local] Existing Instance Sample.platform.

Lemma subtopicOf_defined_witness :
  exists s : string,
    subtopicOf "status" = Some s /\ includes "/" s = false /\ s = "status".
Proof.
  destruct (subtopicOf_defined "status") as (s & E & N & W).
  exists s. split; [exact E|]. split; [exact N|]. apply W. reflexivity.
Defined.

Lemma topic_decomposition_witness :
  includes "/" "app/duck/status" = true
  /\ exists p s : string,
      "app/duck/status" = topicFor p s /\ subtopicOf "app/duck/status" = Some s.
Proof.
  split; [reflexivity|]. apply topic_decomposition. reflexivity.
Defined.

Lemma derivePaircode_collisions_witness :
  includes " " "my" = false /\ includes " " "device" = false
  /\ derivePaircode "app" "my device" = derivePaircode "app" "my-device".
Proof.
  split; [reflexivity|]. split; [reflexivity|].
  apply (derivePaircode_collisions "app" "my" "device"); reflexivity.
Defined.

Lemma data_message_relay_witness :
  JSON_parse (JSON.stringify keydown) = Some keydown
  /\ subtopicOf data_topic = Some (DATA ArcTopics)
  /\ DATA ArcTopics <> STATUS ArcTopics
  /\ parsePayload keydown = Some keydown
  /\ listeners_for (event_type keydown) (window_listeners paired) = []
  /\ messageListener data_topic (JSON.stringify keydown) paired
     = (Returned tt, log (WindowDispatchEvent keydown) paired).
Proof.
  assert (N : DATA ArcTopics <> STATUS ArcTopics) by discriminate.
  split; [reflexivity|]. split; [reflexivity|]. split; [exact N|].
  split; [reflexivity|]. split; [reflexivity|].
  destruct (data_message_relay paired data_topic (JSON.stringify keydown) keydown
              eq_refl eq_refl N) as (_ & R).
  apply R; reflexivity.
Defined.

Lemma messageListener_frame_witness :
  (is_returned (fst (messageListener status_topic "null" paired)) = false
   /\ snd (messageListener status_topic "null" paired) = paired)
  /\ broker_calls
       (effects (snd (messageListener data_topic (JSON.stringify keydown) paired)))
     = broker_calls (effects paired).
Proof.
  split.
  - split; [reflexivity|].
    destruct (messageListener_frame paired status_topic "null") as (T & _).
    apply T. reflexivity.
  - destruct (messageListener_frame paired data_topic (JSON.stringify keydown))
      as (_ & F).
    destruct F as (_ & B & _); [|exact B].
    intros message e P E.
    vm_compute in P. injection P as <-.
    vm_compute in E. injection E as <-. reflexivity.
Defined.

Lemma messageListener_any_prefix_witness :
  includes "/" "status" = false
  /\ messageListener (topicFor "app/my-device" "status")
       (JSON.stringify remote_connected) paired
     = messageListener (topicFor "other-app/other-device" "status")
         (JSON.stringify remote_connected) paired.
Proof.
  split; [reflexivity|]. apply messageListener_any_prefix. reflexivity.
Defined.

Lemma requests_for_lists_witness :
  let ev := request ["keydown"; "keyup"; "keydown"] in
  events (detail ev) = Some ["keydown"; "keyup"; "keydown"]
  /\ fst (activateEventsListener ev paired) = Returned tt
  /\ broker_calls (effects (snd (activateEventsListener ev paired)))
     = (broker_calls (effects paired)
          ++ [ Publish "app/my-device/add-event-listener" (control_message "keydown") 2;
               Publish "app/my-device/add-event-listener" (control_message "keyup") 2;
               Publish "app/my-device/add-event-listener" (control_message "keydown") 2 ])%list.
Proof.
  intros ev. split; [reflexivity|].
  destruct (requests_for_lists paired ev ["keydown"; "keyup"; "keydown"] eq_refl)
    as (A & _ & _ & _ & B & _).
  split; [exact A | exact B].
Defined.



Lemma disconnect_without_client_witness :
  mqttClient ready = None
  /\ fst (arcsDisconnectListener ready)
     = Thrown (TypeError "Cannot read properties of null (reading 'unsubscribe')")
  /\ broker_calls (effects (snd (arcsDisconnectListener ready)))
     = broker_calls (effects ready).
Proof.
  split; [reflexivity|].
  destruct (disconnect_without_client ready eq_refl) as (T & B & _).
  split; [exact T | exact B].
Defined.

Lemma requests_after_disconnect_witness :
  let w' := snd (arcsDisconnectListener paired) in
  fst (arcsDisconnectListener paired) = Returned tt
  /\ broker_calls (effects (snd (activateEventsListener (request ["keydown"]) w')))
     = broker_calls (effects w').
Proof.
  intros w'. split; [reflexivity|].
  destruct (requests_after_disconnect paired (request ["keydown"]) eq_refl)
    as (_ & _ & A & _).
  exact A.
Defined.

Lemma disconnect_rearms_connect_witness :
  let w' := snd (arcsDisconnectListener paired) in
  let d := {| deviceName := Some "duck"; events := None |} in
  detached paired
  /\ fst (arcsDisconnectListener paired) = Returned tt
  /\ react (SceneEmit "arcs-connect" d) w'
     = settle (arcsConnectListener {| detail := d |}) w'.
Proof.
  intros w' d. split; [reflexivity|]. split; [reflexivity|].
  apply (disconnect_rearms_connect paired d); reflexivity.
Defined.


Lemma after_init_witness :
  "arcs-disconnect" <> "enter-vr" /\ "arcs-disconnect" <> "arcs-connect"
  /\ react (SceneEmit "arcs-disconnect" {| deviceName := None; events := None |})
       (fresh config None)
     = fresh config None.
Proof.
  assert (N1 : "arcs-disconnect" <> "enter-vr") by discriminate.
  assert (N2 : "arcs-disconnect" <> "arcs-connect") by discriminate.
  split; [exact N1|]. split; [exact N2|].
  destruct (after_init config None) as (_ & _ & _ & _ & I & _).
  apply I; assumption.
Defined.

Lemma permanent_listeners_witness :
  let r := ("arc-remote-add-listener", ActivateEventsListener) in
  In r (el_listeners paired)
  /\ In r (el_listeners
             (run [SceneEmit "arcs-disconnect" {| deviceName := None; events := None |}]
                  paired)).
Proof.
  intros r.
  assert (X : In r (el_listeners paired)) by (vm_compute; tauto).
  split; [exact X|].
  apply permanent_listeners; [simpl; tauto | exact X].
Defined.

Lemma enter_vr_event_witness :
  let w := run [SceneEmit "arcs-connect" {| deviceName := Some "duck"; events := None |}]
               (fresh config (Some true)) in
  let w0 := run [] (fresh config (Some false)) in
  let entered := SceneEmit "enter-vr" {| deviceName := None; events := None |} in
  effects (react entered w) = (effects w ++ [ActiveElementBlur; BodyFocus])%list
  /\ effects (react entered w0) = (effects w0 ++ [BodyFocus])%list.
Proof.
  intros w w0 entered. subst w w0 entered. split.
  - destruct (enter_vr_event config (Some true)
                [SceneEmit "arcs-connect" {| deviceName := Some "duck"; events := None |}]
                {| deviceName := None; events := None |}) as (_ & R).
    rewrite R. vm_compute. reflexivity.
  - destruct (enter_vr_event config (Some false) []
                {| deviceName := None; events := None |}) as (_ & R).
    rewrite R. vm_compute. reflexivity.
Defined.



Lemma EventDetailError_message_tells_witness :
  "arc-remote-add-listener" <> "arc-remote-remove-listener"
  /\ new_EventDetailError "arc-remote-add-listener" "events" "array<string>"
     <> new_EventDetailError "arc-remote-remove-listener" "events" "array<string>".
Proof.
  assert (N : "arc-remote-add-listener" <> "arc-remote-remove-listener")
    by discriminate.
  split; [exact N|].
  destruct (EventDetailError_message_tells
              "arc-remote-add-listener" "events" "array<string>") as (T & _).
  apply T. exact N.
Defined.

End FurtherRuns.
